(** * Scan-and-remediate dashboard: the front end's data model, HTTP helper,
      status badge, chat panel and page controller, embedded from the
      TypeScript sources and checked against the written specification.

    Source files embedded here:
    - [types]        : [Status], [Finding], [Scan]
    - [lib/api]      : [API_BASE], [apiGet], [apiPost]
    - [StatusBadge]  : the [classes] table and the badge
    - [ChatPanel]    : the state cells, the sync effect and [handleSend]
    - [page]         : [DEMO_HOSTS], [hostFromUrl], [canScan], [onScan],
                       [startAssistant], [sendToAssistantInline], the effect
                       on [url] and the parts of the markup that depend on
                       the state.  The two variants of the page have the
                       same controller code and differ in styling only.

    Handlers are async functions: each is written in a small monad of
    state-setter calls, throws and awaited [fetch]es, with [try]/[catch]/
    [finally] as combinators, and is run against the component state up to
    its next [await].  What the platform provides ([fetch], the [URL]
    constructor, the configured base address) is an input of the model. *)

From Stdlib Require Import Ascii String NArith ZArith QArith.
From stdpp Require Import base option strings gmap list pretty.

Local Open Scope string_scope.

(* ===================================================================== *)
(** ** Strings of the host language

    A string is a sequence of code units; the model keeps the code units
    below 256 that [Ascii.ascii] offers.  [trim] and [toLowerCase] are the
    built-in methods restricted to that range. *)

Module JsString.

(** The white space and line terminator code units removed by [trim]:
    TAB, LF, VT, FF, CR, SP and NBSP. *)
Definition isWhiteSpace (a : ascii) : bool :=
  let n := N_of_ascii a in
  ((9 <=? n) && (n <=? 13) || (n =? 32) || (n =? 160))%N.

Fixpoint trimStart (s : string) : string :=
  match s with
  | EmptyString => EmptyString
  | String a s' => if isWhiteSpace a then trimStart s' else s
  end.

Fixpoint trimEnd (s : string) : string :=
  match s with
  | EmptyString => EmptyString
  | String a s' =>
      match trimEnd s' with
      | EmptyString => if isWhiteSpace a then EmptyString else String a EmptyString
      | t => String a t
      end
  end.

Definition trim (s : string) : string := trimEnd (trimStart s).

(** Upper-case code units: A-Z, and the Latin-1 capitals other than the
    multiplication sign. *)
Definition isUpper (a : ascii) : bool :=
  let n := N_of_ascii a in
  ((65 <=? n) && (n <=? 90) || (192 <=? n) && (n <=? 222) && negb (n =? 215))%N.

Definition lowerChar (a : ascii) : ascii :=
  if isUpper a then ascii_of_N (N_of_ascii a + 32) else a.

Fixpoint toLowerCase (s : string) : string :=
  match s with
  | EmptyString => EmptyString
  | String a s' => String (lowerChar a) (toLowerCase s')
  end.

(** Truthiness of a string: only the empty string is falsy. *)
Definition truthy (s : string) : bool :=
  match s with EmptyString => false | String _ _ => true end.

(** Truthiness of [string | null]. *)
Definition truthy_opt (o : option string) : bool :=
  match o with None => false | Some s => truthy s end.

(** A blank text: empty, or white space only. *)
Fixpoint blank (s : string) : bool :=
  match s with
  | EmptyString => true
  | String a s' => isWhiteSpace a && blank s'
  end.

End JsString.

(** ** Texts that differ only in letter case

    The specification's notion of a case-insensitive comparison, written
    without [toLowerCase]: an upper-case code unit and the lower-case code
    unit 32 above it are the same letter. *)

Module Caseless.

Definition sameLetter (a b : ascii) : bool :=
  let na := N_of_ascii a in
  let nb := N_of_ascii b in
  ((na =? nb)
   || (JsString.isUpper a && (na + 32 =? nb))
   || (JsString.isUpper b && (nb + 32 =? na)))%N.

Fixpoint sameIgnoringCase (s t : string) : bool :=
  match s, t with
  | EmptyString, EmptyString => true
  | String a s', String b t' => sameLetter a b && sameIgnoringCase s' t'
  | _, _ => false
  end.

End Caseless.

(* ===================================================================== *)
(** ** Domain types ([types]) *)

Inductive Status : Type := PASS | WARN | FAIL | INFO.

(** The string each [Status] value is at run time. *)
Definition status_key (st : Status) : string :=
  match st with
  | PASS => "PASS"
  | WARN => "WARN"
  | FAIL => "FAIL"
  | INFO => "INFO"
  end.

(** ["low" | "medium" | "high"] *)
Inductive Level : Type := low | medium | high.

Section DomainTypes.

(** [number], and the values an evidence mapping may hold ([any]). *)
Variables (number any : Type).

Record Finding : Type := mkFinding {
  f_id : string;
  f_key : string;
  f_title : string;
  f_status : Status;
  f_risk : Level;
  f_confidence : Level;
  f_evidence : gmap string any;
  f_recommendation : string;
}.

Record Scan : Type := mkScan {
  scan_id : string;
  scan_url : string;
  scan_score : number;
  scan_findings : list Finding;
}.

End DomainTypes.

Arguments mkFinding {any}.
Arguments f_id {any}.
Arguments f_key {any}.
Arguments f_title {any}.
Arguments f_status {any}.
Arguments f_risk {any}.
Arguments f_confidence {any}.
Arguments f_evidence {any}.
Arguments f_recommendation {any}.
Arguments mkScan {number any}.
Arguments scan_id {number any}.
Arguments scan_url {number any}.
Arguments scan_score {number any}.
Arguments scan_findings {number any}.

(* ===================================================================== *)
(** ** The status badge ([StatusBadge]) *)

Module StatusBadge.

(** [const classes: Record<Status, string> = { ... }] *)
Definition classes : gmap string string :=
  <["INFO" := "bg-blue-100 text-blue-800"]>
  (<["FAIL" := "bg-red-100 text-red-800"]>
  (<["WARN" := "bg-yellow-100 text-yellow-800"]>
  (<["PASS" := "bg-green-100 text-green-800"]> ∅))).

(** What a template literal prints for a property read: the value, or
    [undefined] for a key the object lacks. *)
Definition interpolate (v : option string) : string :=
  match v with
  | Some c => c
  | None => "undefined"
  end.

Record Span : Type := mkSpan {
  span_className : string;
  span_text : string;
}.

Definition StatusBadge (status : Status) : Span :=
  {| span_className :=
       "px-2 py-1 text-xs rounded " ++ interpolate (classes !! status_key status);
     span_text := status_key status |}.

End StatusBadge.

(* ===================================================================== *)
(** ** Thrown values and asynchronous functions *)

(** A thrown value, seen through the only read the handlers make of it:
    [e?.message], which is absent for [null], [undefined] and for values
    without that property. *)
Record Thrown : Type := mkThrown { message : option string }.

(** [new Error(msg)] *)
Definition Error (msg : string) : Thrown := {| message := Some msg |}.

(** [e?.message ?? fallback]: only an absent message gives the fallback; an
    empty message is kept. *)
Definition message_or (e : Thrown) (fallback : string) : string :=
  match message e with
  | Some m => m
  | None => fallback
  end.

Inductive Method : Type := GET | POST.

(** The argument of [fetch]: the address and the init object.  [req_body]
    is the value handed to [JSON.stringify]; [B] is a type of plain data,
    which always serialises. *)
Record Request (B : Type) : Type := mkRequest {
  req_url : string;
  req_method : Method;
  req_headers : list (string * string);
  req_body : option B;
  req_cache : string;
}.
Arguments mkRequest {B}.
Arguments req_url {B}.
Arguments req_method {B}.
Arguments req_headers {B}.
Arguments req_body {B}.
Arguments req_cache {B}.

(** A response as the helper reads it: [res.ok], [res.status], and what
    [res.json()] settles to at the shape [T] the caller asked for. *)
Record Response (T : Type) : Type := mkResponse {
  ok : bool;
  status : N;
  json : Thrown + T;
}.
Arguments mkResponse {T}.
Arguments ok {T}.
Arguments status {T}.
Arguments json {T}.

(** What the promise of [fetch] settles to. *)
Inductive FetchResult (T : Type) : Type :=
| Rejected (e : Thrown)
| Responded (res : Response T).
Arguments Rejected {T}.
Arguments Responded {T}.

(** An async function over a component state [St]: it returns, throws,
    calls a state setter, or awaits a [fetch]. *)
Inductive Async (St A : Type) : Type :=
| Ret (a : A)
| Throw (e : Thrown)
| SetState (upd : St -> St) (k : Async St A)
| Fetch (B T : Type) (req : Request B) (k : FetchResult T -> Async St A).
Arguments Ret {St A}.
Arguments Throw {St A}.
Arguments SetState {St A}.
Arguments Fetch {St A B T}.

Fixpoint bind {St A B} (p : Async St A) (f : A -> Async St B) : Async St B :=
  match p with
  | Ret a => f a
  | Throw e => Throw e
  | SetState upd k => SetState upd (bind k f)
  | Fetch req k => Fetch req (fun r => bind (k r) f)
  end.

#[global] Instance Async_ret {St} : MRet (Async St) := fun A a => Ret a.
#[global] Instance Async_bind {St} : MBind (Async St) := fun A B f p => bind p f.

(** [try { p } catch (e) { h e }] *)
Fixpoint try_catch {St A} (p : Async St A) (h : Thrown -> Async St A) : Async St A :=
  match p with
  | Ret a => Ret a
  | Throw e => h e
  | SetState upd k => SetState upd (try_catch k h)
  | Fetch req k => Fetch req (fun r => try_catch (k r) h)
  end.

(** [try { p } finally { fin }] *)
Fixpoint try_finally {St A} (p : Async St A) (fin : Async St unit) : Async St A :=
  match p with
  | Ret a => bind fin (fun _ => Ret a)
  | Throw e => bind fin (fun _ => Throw e)
  | SetState upd k => SetState upd (try_finally k fin)
  | Fetch req k => Fetch req (fun r => try_finally (k r) fin)
  end.

(** How far a call gets before it has to wait. *)
Inductive Progress (St A : Type) : Type :=
| Resolved (a : A)
| Failed (e : Thrown)
| Awaiting (B T : Type) (req : Request B) (k : FetchResult T -> Async St A).
Arguments Resolved {St A}.
Arguments Failed {St A}.
Arguments Awaiting {St A B T}.

(** Runs a call from state [s] up to its end or its next [await]: the state
    setters met on the way are applied in order. *)
Fixpoint run {St A} (p : Async St A) (s : St) : St * Progress St A :=
  match p with
  | Ret a => (s, Resolved a)
  | Throw e => (s, Failed e)
  | SetState upd k => run k (upd s)
  | Fetch req k => (s, Awaiting req k)
  end.

(* ===================================================================== *)
(** ** The HTTP helper ([lib/api]) *)

Module Api.
Section Api.

(** [process.env.NEXT_PUBLIC_API_BASE_URL], absent when not configured. *)
Variable NEXT_PUBLIC_API_BASE_URL : option string.

Definition API_BASE : string :=
  match NEXT_PUBLIC_API_BASE_URL with
  | Some v => if JsString.truthy v then v else "http://localhost:8000"
  | None => "http://localhost:8000"
  end.

Definition get_request (path : string) : Request Empty_set :=
  {| req_url := API_BASE ++ path;
     req_method := GET;
     req_headers := [];
     req_body := None;
     req_cache := "no-store" |}.

Definition post_request {B} (path : string) (body : B) : Request B :=
  {| req_url := API_BASE ++ path;
     req_method := POST;
     req_headers := [("content-type", "application/json")];
     req_body := Some body;
     req_cache := "no-store" |}.

(** [return res.json()] in an async function: the call settles as the
    decoding does. *)
Definition return_json {St T} (res : Response T) : Async St T :=
  match json res with
  | inr v => Ret v
  | inl e => Throw e
  end.

Definition apiGet {St} (T : Type) (path : string) : Async St T :=
  Fetch (get_request path) (fun r =>
    match r with
    | Rejected e => Throw e
    | Responded res =>
        if negb (ok res)
        then Throw (Error ("GET " ++ path ++ " failed: " ++ pretty (status res)))
        else return_json res
    end).

Definition apiPost {St B} (T : Type) (path : string) (body : B) : Async St T :=
  Fetch (post_request path body) (fun r =>
    match r with
    | Rejected e => Throw e
    | Responded res =>
        if negb (ok res)
        then Throw (Error ("POST " ++ path ++ " failed: " ++ pretty (status res)))
        else return_json res
    end).

End Api.
End Api.

(* ===================================================================== *)
(** ** Chat messages *)

(** ["system" | "user" | "assistant"] *)
Inductive Role : Type := system | user | assistant.

Record Message : Type := mkMessage {
  role : Role;
  content : string;
}.

(* ===================================================================== *)
(** ** The chat panel ([ChatPanel]) *)

Module ChatPanel.

(** The two [useState] cells of the panel. *)
Record State : Type := mkState {
  messages : list Message;
  text : string;
}.

Definition setMessages (f : list Message -> list Message) : Async State unit :=
  SetState (fun s => {| messages := f (messages s); text := text s |}) (Ret tt).

Definition setText (v : string) : Async State unit :=
  SetState (fun s => {| messages := messages s; text := v |}) (Ret tt).

(** [useState<Message[]>(initialMessages || [])], [useState("")] *)
Definition initial (initialMessages : option (list Message)) : State :=
  {| messages := default [] initialMessages; text := "" |}.

(** The effect tied to [initialMessages] and [sessionId]:
    [setMessages(initialMessages || [])]. *)
Definition syncWithParent (initialMessages : option (list Message)) : Async State unit :=
  setMessages (fun _ => default [] initialMessages).

Section Props.

(** The [onSend] prop: any async function of the message. *)
Variable onSend : string -> Async State unit.

(** [handleSend], bound in the render whose state is [c]. *)
Definition handleSend (c : State) : Async State unit :=
  if negb (JsString.truthy (JsString.trim (text c))) then Ret tt
  else
    let msg := JsString.trim (text c) in
    setText "";;
    (* optimistic append *)
    setMessages (fun m => (m ++ [{| role := user; content := msg |}])%list);;
    onSend msg.

End Props.

End ChatPanel.

(* ===================================================================== *)
(** ** The page controller ([page], both variants) *)

(** The object [new URL(u)] builds, seen through its [host] getter. *)
Record URL : Type := mkURL { host : string }.

Module Home.

(** [new Set(["example.com", "www.example.com"])] *)
Definition DEMO_HOSTS : gset string := {[ "example.com"; "www.example.com" ]}.

(** [DEMO_HOSTS.has(h)] *)
Definition has (hosts : gset string) (h : string) : bool := bool_decide (h ∈ hosts).

Section Home.

Variables (number any : Type).

(** [process.env.NEXT_PUBLIC_API_BASE_URL] read by the HTTP helper. *)
Variable NEXT_PUBLIC_API_BASE_URL : option string.

(** The platform's [URL] constructor: the object, or the [TypeError] it
    throws for text that is not a valid URL. *)
Variable URL_new : string -> Thrown + URL.

Definition hostFromUrl (u : string) : string :=
  match URL_new u with
  | inr parsed => JsString.toLowerCase (host parsed)
  | inl _ => ""
  end.

(** The bodies the page posts. *)
Inductive Body : Type :=
| ScanBody (url : string)                               (* { url } *)
| SessionBody (scan : Scan number any) (model : string) (* { scan, model } *)
| MessageBody (session_id user_message model : string).

(** [{ session_id: string; messages: any[]; first: string }] *)
Record Boot : Type := mkBoot {
  boot_session_id : string;
  boot_messages : list Message;
  boot_first : string;
}.

(** [{ reply: string; messages: any[] }] *)
Record Reply : Type := mkReply {
  reply : string;
  reply_messages : list Message;
}.

(** The [useState] cells of the page. *)
Record State : Type := mkState {
  url : string;
  scan : option (Scan number any);
  loading : bool;
  err : option string;
  attest : bool;
  sessionId : option string;
  messages : option (list Message);
  draft : string;
  sending : bool;
}.

Definition initial : State :=
  {| url := "https://example.com"; scan := None; loading := false; err := None;
     attest := false; sessionId := None; messages := None; draft := "";
     sending := false |}.

Definition with_url (v : string) (s : State) : State :=
  {| url := v; scan := scan s; loading := loading s; err := err s;
     attest := attest s; sessionId := sessionId s; messages := messages s;
     draft := draft s; sending := sending s |}.
Definition with_scan (v : option (Scan number any)) (s : State) : State :=
  {| url := url s; scan := v; loading := loading s; err := err s;
     attest := attest s; sessionId := sessionId s; messages := messages s;
     draft := draft s; sending := sending s |}.
Definition with_loading (v : bool) (s : State) : State :=
  {| url := url s; scan := scan s; loading := v; err := err s;
     attest := attest s; sessionId := sessionId s; messages := messages s;
     draft := draft s; sending := sending s |}.
Definition with_err (v : option string) (s : State) : State :=
  {| url := url s; scan := scan s; loading := loading s; err := v;
     attest := attest s; sessionId := sessionId s; messages := messages s;
     draft := draft s; sending := sending s |}.
Definition with_attest (v : bool) (s : State) : State :=
  {| url := url s; scan := scan s; loading := loading s; err := err s;
     attest := v; sessionId := sessionId s; messages := messages s;
     draft := draft s; sending := sending s |}.
Definition with_sessionId (v : option string) (s : State) : State :=
  {| url := url s; scan := scan s; loading := loading s; err := err s;
     attest := attest s; sessionId := v; messages := messages s;
     draft := draft s; sending := sending s |}.
Definition with_messages (v : option (list Message)) (s : State) : State :=
  {| url := url s; scan := scan s; loading := loading s; err := err s;
     attest := attest s; sessionId := sessionId s; messages := v;
     draft := draft s; sending := sending s |}.
Definition with_draft (v : string) (s : State) : State :=
  {| url := url s; scan := scan s; loading := loading s; err := err s;
     attest := attest s; sessionId := sessionId s; messages := messages s;
     draft := v; sending := sending s |}.
Definition with_sending (v : bool) (s : State) : State :=
  {| url := url s; scan := scan s; loading := loading s; err := err s;
     attest := attest s; sessionId := sessionId s; messages := messages s;
     draft := draft s; sending := v |}.

(** The state setters, as calls of an async function. *)
Definition setScan v : Async State unit := SetState (with_scan v) (Ret tt).
Definition setLoading v : Async State unit := SetState (with_loading v) (Ret tt).
Definition setErr v : Async State unit := SetState (with_err v) (Ret tt).
Definition setSessionId v : Async State unit := SetState (with_sessionId v) (Ret tt).
Definition setMessages v : Async State unit := SetState (with_messages v) (Ret tt).
Definition setDraft v : Async State unit := SetState (with_draft v) (Ret tt).
Definition setSending v : Async State unit := SetState (with_sending v) (Ret tt).

(** [setMessages((m) => f(m))]: the updater reads the state of the moment
    it is applied, not the render's. *)
Definition setMessagesWith (f : option (list Message) -> option (list Message))
  : Async State unit :=
  SetState (fun s => with_messages (f (messages s)) s) (Ret tt).

(** [const canScan = DEMO_HOSTS.has(hostFromUrl(url)) || attest] *)
Definition canScan (c : State) : bool :=
  has DEMO_HOSTS (hostFromUrl (url c)) || attest c.

Definition apiPost {B} (T : Type) (path : string) (body : B) : Async State T :=
  Api.apiPost NEXT_PUBLIC_API_BASE_URL T path body.

(** [onScan], bound in the render whose state is [c]. *)
Definition onScan (c : State) : Async State unit :=
  if negb (canScan c)
  then setErr (Some "Please attest you own or are authorized to test this domain.")
  else
    setLoading true;; setErr None;;
    setScan None;; setSessionId None;; setMessages None;; setDraft "";;
    try_finally
      (try_catch
         (result ← apiPost (Scan number any) "/scan" (ScanBody (url c));
          setScan (Some result))
         (fun e => setErr (Some (message_or e "Scan failed"))))
      (setLoading false).

(** [startAssistant], bound in the render whose state is [c]. *)
Definition startAssistant (c : State) : Async State unit :=
  match scan c with
  | None => Ret tt
  | Some sc =>
      setErr None;;
      try_catch
        (boot ← apiPost Boot "/llm/session" (SessionBody sc "gpt-4o-mini");
         setSessionId (Some (boot_session_id boot));;
         setMessages (Some (boot_messages boot)))
        (fun e => setErr (Some (message_or e "Assistant failed to start")))
  end.

(** The updater of the optimistic append:
    [m ? [...m, entry] : [entry]]. *)
Definition append_entry (entry : Message) (m : option (list Message))
  : option (list Message) :=
  match m with
  | Some l => Some (l ++ [entry])%list
  | None => Some [entry]
  end.

(** [sendToAssistantInline], bound in the render whose state is [c].
    The guard [!sessionId || !draft.trim()] returns for a [null] and for
    an empty session id. *)
Definition sendToAssistantInline (c : State) : Async State unit :=
  match sessionId c with
  | None => Ret tt
  | Some sid =>
      if negb (JsString.truthy sid) || negb (JsString.truthy (JsString.trim (draft c)))
      then Ret tt
      else
        let text := JsString.trim (draft c) in
        setDraft "";;
        (* optimistic append *)
        setMessagesWith (append_entry {| role := user; content := text |});;
        setSending true;;
        try_finally
          (try_catch
             (resp ← apiPost Reply "/llm/message" (MessageBody sid text "gpt-4o-mini");
              (* replace with the server's authoritative thread *)
              setMessages (Some (reply_messages resp)))
             (fun e => setErr (Some (message_or e "Assistant error"))))
          (setSending false)
  end.

(** The effect tied to [url]: [if (err) setErr(null)]. *)
Definition clearErrOnUrlChange (c : State) : Async State unit :=
  if JsString.truthy_opt (err c) then setErr None else Ret tt.

(** *** The state and the request at each handler's [await] *)

(** The setters [onScan] calls before its request, in order. *)
Definition scan_reset (s : State) : State :=
  with_draft ""
    (with_messages None
       (with_sessionId None
          (with_scan None (with_err None (with_loading true s))))).

(** The [fetch] argument of [apiPost("/scan", { url })]. *)
Definition scan_request (c : State) : Request Body :=
  Api.post_request NEXT_PUBLIC_API_BASE_URL "/scan" (ScanBody (url c)).

(** The provisional entry: [{ role: "user", content: text }]. *)
Definition provisional (text : string) : Message :=
  {| role := user; content := text |}.

(** The setters [sendToAssistantInline] calls before its request. *)
Definition send_optimistic (text : string) (s : State) : State :=
  with_sending true
    (with_messages (append_entry (provisional text) (messages s))
       (with_draft "" s)).

(** The [fetch] argument of the [/llm/message] call. *)
Definition message_request (sid text : string) : Request Body :=
  Api.post_request NEXT_PUBLIC_API_BASE_URL "/llm/message"
    (MessageBody sid text "gpt-4o-mini").

(** *** What the page shows of a scan *)

(** [<FindingCard key={f.id} f={f} />] *)
Record Card : Type := mkCard {
  card_key : string;
  card_f : Finding any;
}.

(** One entry of the thread: its style class, role and text. *)
Record Bubble : Type := mkBubble {
  bubble_className : string;
  bubble_role : Role;
  bubble_content : string;
}.

Definition bubble (m : Message) : Bubble :=
  {| bubble_className :=
       match role m with
       | assistant => "bg-gray-100 p-2 rounded"
       | user => "bg-blue-50 p-2 rounded"
       | system => "text-xs text-gray-500"
       end;
     bubble_role := role m;
     bubble_content := content m |}.

(** The section under [{scan && ( ... )}]. *)
Record ScanSection : Type := mkScanSection {
  shown_score : number;
  shown_url : string;
  shown_thread : option (list Bubble);
  shown_cards : list Card;
}.

(** The parts of the markup that depend on the state. *)
Record View : Type := mkView {
  input_value : string;
  scan_disabled : bool;
  attestation_shown : bool;
  error_banner : option string;
  scan_section : option ScanSection;
}.

Definition render (s : State) : View :=
  {| input_value := url s;
     scan_disabled := loading s || negb (canScan s);
     attestation_shown := negb (has DEMO_HOSTS (hostFromUrl (url s)));
     error_banner :=
       match err s with
       | Some e => if JsString.truthy e then Some e else None
       | None => None
       end;
     scan_section :=
       match scan s with
       | None => None
       | Some sc =>
           Some {| shown_score := scan_score sc;
                   shown_url := scan_url sc;
                   shown_thread :=
                     if JsString.truthy_opt (sessionId s)
                     then match messages s with
                          | Some ms => Some (map bubble ms)
                          | None => None
                          end
                     else None;
                   shown_cards :=
                     map (fun f => {| card_key := f_id f; card_f := f |})
                         (scan_findings sc) |}
       end |}.

End Home.

Arguments mkState {number any}.
Arguments url {number any}.
Arguments scan {number any}.
Arguments loading {number any}.
Arguments err {number any}.
Arguments attest {number any}.
Arguments sessionId {number any}.
Arguments messages {number any}.
Arguments draft {number any}.
Arguments sending {number any}.
Arguments initial {number any}.
Arguments with_url {number any}.
Arguments with_scan {number any}.
Arguments with_loading {number any}.
Arguments with_err {number any}.
Arguments with_attest {number any}.
Arguments with_sessionId {number any}.
Arguments with_messages {number any}.
Arguments with_draft {number any}.
Arguments with_sending {number any}.
Arguments ScanBody {number any}.
Arguments SessionBody {number any}.
Arguments MessageBody {number any}.
Arguments canScan {number any}.
Arguments onScan {number any}.
Arguments startAssistant {number any}.
Arguments sendToAssistantInline {number any}.
Arguments clearErrOnUrlChange {number any}.
Arguments scan_reset {number any}.
Arguments scan_request {number any}.
Arguments send_optimistic {number any}.
Arguments mkCard {any}.
Arguments card_key {any}.
Arguments card_f {any}.
Arguments mkScanSection {number any}.
Arguments shown_score {number any}.
Arguments shown_url {number any}.
Arguments shown_thread {number any}.
Arguments shown_cards {number any}.
Arguments mkView {number any}.
Arguments input_value {number any}.
Arguments scan_disabled {number any}.
Arguments attestation_shown {number any}.
Arguments error_banner {number any}.
Arguments scan_section {number any}.
Arguments render {number any}.

End Home.

(* ===================================================================== *)
(** ** The colour of the score (the restyled variant of the page) *)

Module Score.

(** A [number]: not-a-number, an infinity, or a finite value.  Every finite
    double is a rational, and doubles compare as their values do. *)
Inductive JsNumber : Type :=
| NaN
| NegInfinity
| PosInfinity
| Finite (q : Q).

(** [n >= c] for an integer literal [c]: false for [NaN]. *)
Definition geq (n : JsNumber) (c : Z) : bool :=
  match n with
  | NaN => false
  | NegInfinity => false
  | PosInfinity => true
  | Finite q => Qle_bool (inject_Z c) q
  end.

Definition scoreColor (n : JsNumber) : string :=
  if geq n 99 then "text-amber-500 drop-shadow-[0_0_2px_rgba(251,191,36,0.6)]"
  else if geq n 65 then "text-emerald-600"
  else if geq n 50 then "text-yellow-500"
  else "text-red-600".

End Score.

(* ===================================================================== *)
(** ** The page as the user drives it *)

(** A call carried to its end with no other event in between: the states
    [s'] it can end in from [s], over all the ways its [fetch]es settle.  A
    call that ends by throwing leaves the state it had reached. *)
Fixpoint finishes {St A} (p : Async St A) (s s' : St) : Prop :=
  match p with
  | Ret _ => s' = s
  | Throw _ => s' = s
  | SetState upd k => finishes k (upd s) s'
  | Fetch req k => exists r, finishes (k r) s s'
  end.

Module Page.
Section Page.

Variables (number any : Type).
Variable NEXT_PUBLIC_API_BASE_URL : option string.
Variable URL_new : string -> Thrown + URL.

Abbreviation State := (Home.State number any).

Definition setUrl (v : string) : Async State unit := SetState (Home.with_url v) (Ret tt).
Definition setAttest (v : bool) : Async State unit := SetState (Home.with_attest v) (Ret tt).

(** Whether the block under [{sessionId && messages && ( ... )}] is in the
    markup; it sits inside the block under [{scan && ( ... )}]. *)
Definition thread_shown (s : State) : bool :=
  match Home.scan_section (Home.render URL_new s) with
  | Some sec => bool_decide (is_Some (Home.shown_thread sec))
  | None => false
  end.

(** What the user can do to the page. *)
Inductive Action : Type :=
| EditUrl (v : string)        (* the URL input's [onChange] *)
| ToggleAttest (v : bool)     (* the checkbox's [onChange] *)
| ClickScan
| ClickStartAssistant
| TypeDraft (v : string)      (* the draft input's [onChange] *)
| PressEnter                  (* [onKeyDown] with [Enter] in the draft input *)
| ClickSend.

(** The call an action makes on the page rendered from [s].  An element
    that is not in the markup, and a disabled button, calls nothing.  The
    effect tied to [url] runs after a render in which [url] changed, with
    that render's [err]. *)
Definition fire (a : Action) (s : State) : Async State unit :=
  match a with
  | EditUrl v =>
      if bool_decide (v = Home.url s) then Ret tt
      else setUrl v;; Home.clearErrOnUrlChange (Home.with_url v s)
  | ToggleAttest v =>
      if Home.attestation_shown (Home.render URL_new s) then setAttest v else Ret tt
  | ClickScan =>
      if Home.scan_disabled (Home.render URL_new s) then Ret tt
      else Home.onScan NEXT_PUBLIC_API_BASE_URL URL_new s
  | ClickStartAssistant =>
      match Home.scan_section (Home.render URL_new s) with
      | Some _ => Home.startAssistant NEXT_PUBLIC_API_BASE_URL s
      | None => Ret tt
      end
  | TypeDraft v => if thread_shown s then Home.setDraft number any v else Ret tt
  | PressEnter =>
      if thread_shown s then Home.sendToAssistantInline NEXT_PUBLIC_API_BASE_URL s
      else Ret tt
  | ClickSend =>
      if thread_shown s && negb (Home.sending s)
      then Home.sendToAssistantInline NEXT_PUBLIC_API_BASE_URL s
      else Ret tt
  end.

(** The states the page can be in when each action's call has ended before
    the next action. *)
Inductive reachable : State -> Prop :=
| reachable_initial : reachable Home.initial
| reachable_step (a : Action) (s s' : State) :
    reachable s -> finishes (fire a s) s s' -> reachable s'.

(** What holds of the page between two actions when no call overlaps
    another: nothing is loading or sending, the session identifier and the
    transcript are there together or not at all, and a session has a scan
    under it. *)
Definition at_rest (s : State) : Prop :=
  Home.loading s = false /\
  Home.sending s = false /\
  (Home.sessionId s = None <-> Home.messages s = None) /\
  (is_Some (Home.sessionId s) -> is_Some (Home.scan s)).

(** The [fetch] argument of the [/llm/session] call. *)
Definition session_request (sc : Scan number any) : Request (Home.Body number any) :=
  Api.post_request NEXT_PUBLIC_API_BASE_URL "/llm/session"
    (Home.SessionBody sc "gpt-4o-mini").

End Page.

Arguments thread_shown {number any}.
Arguments fire {number any}.
Arguments reachable {number any}.
Arguments at_rest {number any}.
Arguments session_request {number any}.

End Page.

(* ===================================================================== *)
(** ** Sample platform values for the worked examples *)

Module Sample.

(** A table of the platform's [URL] constructor at the addresses the
    examples use (for an [https] address the parser lower-cases scheme and
    host); the table rejects every other text, as the constructor does
    [not a url]. *)
Definition URL_new (u : string) : Thrown + URL :=
  if bool_decide (u = "https://example.com") then inr {| host := "example.com" |}
  else if bool_decide (u = "HTTPS://EXAMPLE.COM") then inr {| host := "example.com" |}
  else if bool_decide (u = "https://mysite.io") then inr {| host := "mysite.io" |}
  else inl (Error "Invalid URL").

(** The same table with one address of a scheme that is not special: for
    such a scheme the parser keeps the host as it is written. *)
Definition URL_new_opaque (u : string) : Thrown + URL :=
  if bool_decide (u = "ssh://EXAMPLE.COM") then inr {| host := "EXAMPLE.COM" |}
  else URL_new u.

Definition number : Type := Z.
Definition any : Type := string.

(** No base address configured. *)
Definition env : option string := None.

Definition State : Type := Home.State number any.

(** The example scan of the specification. *)
Definition scan72 : Scan number any :=
  {| scan_id := "1"; scan_url := "https://example.com"; scan_score := 72%Z;
     scan_findings := [] |}.

(** A scan is shown, a session is open with one turn on the transcript, and
    a draft is typed. *)
Definition chatting : State :=
  {| Home.url := "https://example.com"; Home.scan := Some scan72; Home.loading := false;
     Home.err := None; Home.attest := false; Home.sessionId := Some "s-1";
     Home.messages := Some [ {| role := assistant; content := "Hello" |} ];
     Home.draft := "  fix the CSP header "; Home.sending := false |}.

(** The same page with a draft of spaces only. *)
Definition blank_draft : State := Home.with_draft "   " chatting.

(** A fresh page pointed at an address off the allow-list. *)
Definition other_site : State := Home.with_url "https://mysite.io" Home.initial.

(** A panel whose input holds one space. *)
Definition blank_panel : ChatPanel.State :=
  {| ChatPanel.messages := []; ChatPanel.text := " " |}.

(** A server transcript answering the draft of [chatting]. *)
Definition reply_body : Home.Reply :=
  {| Home.reply := "Add the header.";
     Home.reply_messages :=
       [ {| role := assistant; content := "Hello" |};
         {| role := user; content := "fix the CSP header" |};
         {| role := assistant; content := "Add the header." |} ] |}.

Definition ok_200 {T} (body : T) : FetchResult T :=
  Responded {| ok := true; status := 200; json := inr body |}.

Definition error_500 {T} (body : T) : FetchResult T :=
  Responded {| ok := false; status := 500; json := inr body |}.

Definition message_request : string -> string -> Request (Home.Body number any) :=
  Home.message_request number any env.

(** A scan is shown and no session is open. *)
Definition scanned : State := Home.with_scan (Some scan72) Home.initial.

(** The page after a scan that failed. *)
Definition failed : State := Home.with_err (Some "POST /scan failed: 500") Home.initial.

(** What the server answers to a session start. *)
Definition boot_body : Home.Boot :=
  {| Home.boot_session_id := "s-1";
     Home.boot_messages := [ {| role := assistant; content := "Hello" |} ];
     Home.boot_first := "Hello" |}.

(** The fresh page after a click on Scan answered with [scan72]. *)
Definition after_scan : State :=
  Home.with_loading false (Home.with_scan (Some scan72) (Home.scan_reset Home.initial)).

(** That page after a click on Start Assistant answered with [boot_body]. *)
Definition after_start : State :=
  Home.with_messages (Some (Home.boot_messages boot_body))
    (Home.with_sessionId (Some (Home.boot_session_id boot_body))
       (Home.with_err None after_scan)).

(** A panel whose input holds a padded text. *)
Definition typing_panel : ChatPanel.State :=
  {| ChatPanel.messages := [ {| role := assistant; content := "Hello" |} ];
     ChatPanel.text := " fix CORS " |}.

End Sample.

(* ===================================================================== *)
(** * Properties *)

(** ** Strings *)

Section JsStringFacts.
Import JsString.

Lemma trimStart_blank s : blank s = true -> trimStart s = "".
Proof.
  induction s as [|a s IH]; simpl; [reflexivity|].
  intros [Ha Hs]%andb_true_iff. rewrite Ha. auto.
Qed.

Lemma blank_trimStart s : blank (trimStart s) = true -> blank s = true.
Proof.
  induction s as [|a s IH]; simpl; [reflexivity|].
  destruct (isWhiteSpace a) eqn:Ha; simpl.
  - auto.
  - rewrite Ha. simpl. discriminate.
Qed.

Lemma trimEnd_empty s : trimEnd s = "" -> blank s = true.
Proof.
  induction s as [|a s IH]; simpl; [reflexivity|].
  destruct (trimEnd s) eqn:Ht; [|discriminate].
  destruct (isWhiteSpace a); [|discriminate].
  intros _. simpl. auto.
Qed.

(** [trim] leaves nothing exactly of the blank texts. *)
Lemma trim_empty_iff_blank s : trim s = "" <-> blank s = true.
Proof.
  unfold trim. split.
  - intros H. apply blank_trimStart, trimEnd_empty, H.
  - intros H. rewrite trimStart_blank by exact H. reflexivity.
Qed.

Lemma truthy_trim_blank s : blank s = true -> truthy (trim s) = false.
Proof. intros H. apply trim_empty_iff_blank in H. rewrite H. reflexivity. Qed.

Lemma lowerChar_idem a : lowerChar (lowerChar a) = lowerChar a.
Proof. destruct a as [[] [] [] [] [] [] [] []]; reflexivity. Qed.

Lemma toLowerCase_idem s : toLowerCase (toLowerCase s) = toLowerCase s.
Proof.
  induction s as [|a s IH]; simpl; [reflexivity|].
  rewrite lowerChar_idem, IH. reflexivity.
Qed.

End JsStringFacts.

(** ** The case-insensitive comparison and [toLowerCase] *)

Section CaselessFacts.
Import JsString Caseless.

(** Two code units are the same letter exactly when they lower to the same
    code unit: checked on the 256 x 256 pairs. *)
Lemma sameLetter_lowerChar a b :
  sameLetter a b = Ascii.eqb (lowerChar a) (lowerChar b).
Proof.
  assert (Htable :
    forallb (fun i =>
      forallb (fun j =>
        Bool.eqb (sameLetter (ascii_of_nat i) (ascii_of_nat j))
                 (Ascii.eqb (lowerChar (ascii_of_nat i)) (lowerChar (ascii_of_nat j))))
        (seq 0 256)) (seq 0 256) = true) by (vm_compute; reflexivity).
  rewrite forallb_forall in Htable.
  assert (Ha : In (nat_of_ascii a) (seq 0 256))
    by (apply in_seq; pose proof (nat_ascii_bounded a); lia).
  assert (Hb : In (nat_of_ascii b) (seq 0 256))
    by (apply in_seq; pose proof (nat_ascii_bounded b); lia).
  specialize (Htable _ Ha). rewrite forallb_forall in Htable.
  specialize (Htable _ Hb). rewrite !ascii_nat_embedding in Htable.
  apply Bool.eqb_prop in Htable. exact Htable.
Qed.

Lemma sameIgnoringCase_toLowerCase s t :
  sameIgnoringCase s t = true <-> toLowerCase s = toLowerCase t.
Proof.
  revert t. induction s as [|a s IH]; intros [|b t]; simpl;
    try (split; [reflexivity || discriminate | reflexivity || discriminate]).
  rewrite andb_true_iff, sameLetter_lowerChar, Ascii.eqb_eq, IH.
  split; [intros [-> ->]; reflexivity|intros [= -> ->]; split; reflexivity].
Qed.

Lemma sameIgnoringCase_lower s : sameIgnoringCase s (toLowerCase s) = true.
Proof. apply sameIgnoringCase_toLowerCase. symmetry. apply toLowerCase_idem. Qed.

End CaselessFacts.

(** ** The allow-list *)

Lemma DEMO_HOSTS_spec (h : string) :
  Home.has Home.DEMO_HOSTS h = true <-> h = "example.com" \/ h = "www.example.com".
Proof.
  unfold Home.has, Home.DEMO_HOSTS. rewrite bool_decide_eq_true. set_solver.
Qed.

Lemma DEMO_HOSTS_empty_host : Home.has Home.DEMO_HOSTS "" = false.
Proof.
  apply not_true_is_false. rewrite DEMO_HOSTS_spec. intros [H|H]; discriminate.
Qed.

(** ** The sample values behave as the specification's scenarios say *)

Example trim_draft : JsString.trim "  fix the CSP header " = "fix the CSP header".
Proof. reflexivity. Qed.

Example trim_spaces : JsString.trim "   " = "".
Proof. reflexivity. Qed.

Example toLowerCase_host : JsString.toLowerCase "EXAMPLE.COM" = "example.com".
Proof. reflexivity. Qed.

Example status_text : pretty 404%N = "404".
Proof. vm_compute. reflexivity. Qed.

(** [https://example.com], attestation unchecked: the scan is allowed. *)
Example allow_listed_scan_allowed :
  Home.attest (Home.initial (number := Sample.number) (any := Sample.any)) = false /\
  Home.canScan Sample.URL_new (Home.initial (number := Sample.number) (any := Sample.any))
  = true.
Proof. split; reflexivity. Qed.

(** [https://mysite.io], attestation unchecked: the scan is blocked, the
    button is disabled and the checkbox is shown; a call of [onScan] sets
    the error text. *)
Example other_site_scan_blocked :
  Home.canScan Sample.URL_new Sample.other_site = false /\
  Home.scan_disabled (Home.render Sample.URL_new Sample.other_site) = true /\
  Home.attestation_shown (Home.render Sample.URL_new Sample.other_site) = true /\
  Home.error_banner
    (Home.render Sample.URL_new
       (fst (run (Home.onScan Sample.env Sample.URL_new Sample.other_site)
                 Sample.other_site)))
  = Some "Please attest you own or are authorized to test this domain.".
Proof. repeat split; reflexivity. Qed.

(** After the checkbox is ticked, [onScan] posts the URL to [/scan]. *)
Example other_site_scan_after_attestation :
  exists k : FetchResult (Scan Sample.number Sample.any) -> Async Sample.State unit,
    run (Home.onScan Sample.env Sample.URL_new (Home.with_attest true Sample.other_site))
        (Home.with_attest true Sample.other_site)
    = (Home.scan_reset (Home.with_attest true Sample.other_site),
       Awaiting (Home.scan_request Sample.env Sample.other_site) k) /\
    Home.scan_request Sample.env Sample.other_site
    = {| req_url := "http://localhost:8000/scan";
         req_method := POST;
         req_headers := [("content-type", "application/json")];
         req_body := Some (Home.ScanBody "https://mysite.io");
         req_cache := "no-store" |}.
Proof. eexists. split; reflexivity. Qed.

(** ** The status badge *)

(** C9.  Each of PASS, WARN, FAIL and INFO is a key of the [classes] table,
    so the lookup never falls through to [undefined]; the style class found
    is not empty; and two statuses have the same style class, or the same
    badge class name, only when they are the same status. *)
Theorem C9_status_badge_total_distinct :
  (forall st : Status,
      exists c : string,
        StatusBadge.classes !! status_key st = Some c /\
        c <> "" /\
        StatusBadge.span_className (StatusBadge.StatusBadge st)
          = "px-2 py-1 text-xs rounded " ++ c) /\
  (forall st1 st2 : Status,
      StatusBadge.classes !! status_key st1 = StatusBadge.classes !! status_key st2
      <-> st1 = st2) /\
  (forall st1 st2 : Status,
      StatusBadge.span_className (StatusBadge.StatusBadge st1)
        = StatusBadge.span_className (StatusBadge.StatusBadge st2)
      <-> st1 = st2).
Proof.
  split; [|split].
  - intros st. destruct st; eexists; (split; [vm_compute; reflexivity|]);
      split; first [discriminate | reflexivity].
  - intros st1 st2. split; [|intros ->; reflexivity].
    intros H. destruct st1, st2; try reflexivity; vm_compute in H; discriminate.
  - intros st1 st2. split; [|intros ->; reflexivity].
    intros H. destruct st1, st2; try reflexivity; vm_compute in H; discriminate.
Qed.

(** ** The HTTP helper *)

(** C3.  [apiGet] and [apiPost] make one [fetch], with caching disabled, and
    then settle without another: with the decoded body when the response
    is [ok] (or as the decoding fails), and otherwise with an error whose
    message is the verb, the path, [failed:] and the decimal status code.
    A rejected [fetch] is passed on as it is. *)
Theorem C3_api_helpers_settle_after_one_fetch :
  forall (env : option string) (St B T : Type) (path : string) (body : B) (s : St),
    (exists k,
        run (Api.apiGet env T path) s = (s, Awaiting (Api.get_request env path) k) /\
        req_cache (Api.get_request env path) = "no-store" /\
        forall (r : FetchResult T) (s' : St),
          run (k r) s'
          = (s', match r with
                 | Rejected e => Failed e
                 | Responded res =>
                     if ok res
                     then match json res with
                          | inr v => Resolved v
                          | inl e => Failed e
                          end
                     else Failed (Error ("GET " ++ path ++ " failed: "
                                           ++ pretty (status res)))
                 end)) /\
    (exists k,
        run (Api.apiPost env T path body) s
        = (s, Awaiting (Api.post_request env path body) k) /\
        req_cache (Api.post_request env path body) = "no-store" /\
        forall (r : FetchResult T) (s' : St),
          run (k r) s'
          = (s', match r with
                 | Rejected e => Failed e
                 | Responded res =>
                     if ok res
                     then match json res with
                          | inr v => Resolved v
                          | inl e => Failed e
                          end
                     else Failed (Error ("POST " ++ path ++ " failed: "
                                           ++ pretty (status res)))
                 end)).
Proof.
  intros env St B T path body s. split.
  - eexists. split; [reflexivity|]. split; [reflexivity|].
    intros [e|res] s'; simpl; [reflexivity|].
    unfold Api.return_json. destruct (ok res); simpl; [|reflexivity].
    destruct (json res); reflexivity.
  - eexists. split; [reflexivity|]. split; [reflexivity|].
    intros [e|res] s'; simpl; [reflexivity|].
    unfold Api.return_json. destruct (ok res); simpl; [|reflexivity].
    destruct (json res); reflexivity.
Qed.

Example api_error_message_404 :
  exists k,
    run (Api.apiPost (St := unit) None unit "/scan" (Home.ScanBody (number := Z) (any := string) "https://mysite.io")) tt
    = (tt, Awaiting (Api.post_request None "/scan" (Home.ScanBody (number := Z) (any := string) "https://mysite.io")) k) /\
    run (k (Responded {| ok := false; status := 404; json := inr tt |})) tt
    = (tt, Failed (Error "POST /scan failed: 404")).
Proof. eexists. split; [reflexivity|]. vm_compute. reflexivity. Qed.

(** ** The page controller *)

Section HomeFacts.

Context {number any : Type}.
Context (env : option string) (URL_new : string -> Thrown + URL).

Abbreviation State := (Home.State number any).
Abbreviation hostFromUrl := (Home.hostFromUrl URL_new).
Abbreviation canScan := (Home.canScan URL_new).
Abbreviation onScan := (Home.onScan env URL_new).
Abbreviation startAssistant := (Home.startAssistant env).
Abbreviation sendToAssistantInline := (Home.sendToAssistantInline env).
Abbreviation render := (Home.render URL_new).
Abbreviation scan_request := (Home.scan_request (number := number) (any := any) env).
Abbreviation message_request := (Home.message_request number any env).

Lemma canScan_unfold (c : State) :
  canScan c = Home.has Home.DEMO_HOSTS (hostFromUrl (Home.url c)) || Home.attest c.
Proof. reflexivity. Qed.

(** C2.  When the host extracted from the URL is [example.com] or
    [www.example.com], [canScan] is true whatever the attestation flag,
    so also with the flag unchecked; for every other extracted host
    [canScan] is the attestation flag. *)
Theorem C2_attestation_gate :
  forall c : State,
    ((hostFromUrl (Home.url c) = "example.com" \/
      hostFromUrl (Home.url c) = "www.example.com") ->
     canScan c = true) /\
    (~ (hostFromUrl (Home.url c) = "example.com" \/
        hostFromUrl (Home.url c) = "www.example.com") ->
     (canScan c = true <-> Home.attest c = true)).
Proof.
  intros c. rewrite canScan_unfold. split; intros H.
  - apply DEMO_HOSTS_spec in H. rewrite H. reflexivity.
  - rewrite <- DEMO_HOSTS_spec in H. apply not_true_is_false in H.
    rewrite H. reflexivity.
Qed.

(** C7.  For text the [URL] constructor rejects, [hostFromUrl] returns the
    empty string instead of throwing; the empty string is not in the
    allow-list, so the allow-list test fails and [canScan] is the
    attestation flag. *)
Theorem C7_invalid_url_blocks_allow_list :
  forall (u : string) (e : Thrown),
    URL_new u = inl e ->
    hostFromUrl u = "" /\
    ("" ∉ Home.DEMO_HOSTS) /\
    forall c : State,
      Home.url c = u ->
      Home.has Home.DEMO_HOSTS (hostFromUrl (Home.url c)) = false /\
      canScan c = Home.attest c.
Proof.
  intros u e Hu.
  assert (Hh : hostFromUrl u = "") by (unfold Home.hostFromUrl; rewrite Hu; reflexivity).
  split; [exact Hh|]. split.
  - intros H.
    assert (H' : Home.has Home.DEMO_HOSTS "" = true)
      by (unfold Home.has; apply bool_decide_eq_true; exact H).
    rewrite DEMO_HOSTS_empty_host in H'. discriminate.
  - intros c Hc. rewrite canScan_unfold, Hc, Hh, DEMO_HOSTS_empty_host.
    split; reflexivity.
Qed.

(** C10.  The allow-list test does not see the case of the letters of the
    host.  For a URL the constructor accepts, the test succeeds exactly
    when the parsed host is [example.com] or [www.example.com] up to letter
    case, which is when its lower-cased form is one of the two; so a host
    written in capitals passes as its lower-case form does.  Two URLs whose
    parsed hosts differ only in letter case (in particular when one host is
    the lower-case form of the other) get the same allow-list result and,
    under the same attestation flag, the same [canScan]. *)
Theorem C10_allow_list_ignores_host_case :
  forall (u u' : string) (p p' : URL),
    URL_new u = inr p ->
    URL_new u' = inr p' ->
    (Home.has Home.DEMO_HOSTS (hostFromUrl u) = true <->
     Caseless.sameIgnoringCase (host p) "example.com" = true \/
     Caseless.sameIgnoringCase (host p) "www.example.com" = true) /\
    (Home.has Home.DEMO_HOSTS (hostFromUrl u) = true <->
     JsString.toLowerCase (host p) = "example.com" \/
     JsString.toLowerCase (host p) = "www.example.com") /\
    ((Caseless.sameIgnoringCase (host p') (host p) = true \/
      JsString.toLowerCase (host p') = JsString.toLowerCase (host p) \/
      host p' = JsString.toLowerCase (host p)) ->
     Home.has Home.DEMO_HOSTS (hostFromUrl u')
     = Home.has Home.DEMO_HOSTS (hostFromUrl u) /\
     forall c c' : State,
       Home.url c = u -> Home.url c' = u' -> Home.attest c' = Home.attest c ->
       canScan c' = canScan c).
Proof.
  intros u u' p p' Hu Hu'.
  assert (Hh : hostFromUrl u = JsString.toLowerCase (host p))
    by (unfold Home.hostFromUrl; rewrite Hu; reflexivity).
  assert (Hh' : hostFromUrl u' = JsString.toLowerCase (host p'))
    by (unfold Home.hostFromUrl; rewrite Hu'; reflexivity).
  split; [|split].
  - rewrite Hh, DEMO_HOSTS_spec, !sameIgnoringCase_toLowerCase. reflexivity.
  - rewrite Hh. apply DEMO_HOSTS_spec.
  - intros Hcase.
    assert (Heq : hostFromUrl u' = hostFromUrl u).
    { rewrite Hh, Hh'. destruct Hcase as [H|[H|H]].
      - apply sameIgnoringCase_toLowerCase, H.
      - exact H.
      - rewrite H. apply toLowerCase_idem. }
    split; [rewrite Heq; reflexivity|].
    intros c c' Hc Hc' Ha. rewrite !canScan_unfold, Hc, Hc', Heq, Ha. reflexivity.
Qed.

(** *** Scanning *)

(** With the gate open, [onScan] resets the page, posts the URL of its
    render to [/scan] and waits; whatever the [fetch] settles to, the
    handler then finishes, in one of two ways. *)
Lemma onScan_runs (c s : State) :
  canScan c = true ->
  exists k,
    run (onScan c) s = (Home.scan_reset s, Awaiting (scan_request c) k) /\
    (forall (res : Response (Scan number any)) (result : Scan number any) (s' : State),
        ok res = true -> json res = inr result ->
        run (k (Responded res)) s'
        = (Home.with_loading false (Home.with_scan (Some result) s'), Resolved tt)) /\
    (forall r : FetchResult (Scan number any),
        match r with
        | Rejected _ => True
        | Responded res => ok res = false \/ exists e, json res = inl e
        end ->
        exists e,
          (forall res, r = Responded res -> ok res = false ->
                       e = Error ("POST /scan failed: " ++ pretty (status res))) /\
          forall s' : State,
            run (k r) s'
            = (Home.with_loading false
                 (Home.with_err (Some (message_or e "Scan failed")) s'), Resolved tt)).
Proof.
  intros Hgate. unfold Home.onScan. rewrite Hgate. simpl.
  eexists. split; [reflexivity|]. split.
  - intros res result s' Hok Hjson. simpl.
    unfold Api.return_json. rewrite Hok, Hjson. reflexivity.
  - intros [e|res] Hfail; simpl.
    + exists e. split; [discriminate|]. reflexivity.
    + unfold Api.return_json. destruct (ok res) eqn:Hok; simpl.
      * destruct Hfail as [Hfail|[e He]]; [discriminate|].
        rewrite He. exists e. split; [|reflexivity].
        intros res' [= <-] Hok'. congruence.
      * eexists. split; [|reflexivity].
        intros res' [= <-] _. reflexivity.
Qed.

(** C6 (amended).  A scan that passes the gate sets the session identifier
    and the transcript to [null] before its request goes out.  A successful
    response then sets the scan to the returned [Scan], lowers the loading
    flag and touches nothing else of the state it arrives in: the session
    identifier and the transcript are afterwards what they are in that
    state, hence absent when they are absent there.  In particular they
    are absent at the end of every scan during which no other reply
    arrives. *)
Theorem C6_scan_success_sets_only_the_scan :
  forall (c s : State),
    canScan c = true ->
    exists k,
      run (onScan c) s = (Home.scan_reset s, Awaiting (scan_request c) k) /\
      Home.sessionId (Home.scan_reset s) = None /\
      Home.messages (Home.scan_reset s) = None /\
      (forall (res : Response (Scan number any)) (result : Scan number any) (s' : State),
          ok res = true -> json res = inr result ->
          exists s2,
            run (k (Responded res)) s' = (s2, Resolved tt) /\
            s2 = Home.with_loading false (Home.with_scan (Some result) s') /\
            Home.scan s2 = Some result /\
            Home.loading s2 = false /\
            Home.sessionId s2 = Home.sessionId s' /\
            Home.messages s2 = Home.messages s' /\
            (Home.sessionId s' = None -> Home.messages s' = None ->
             Home.sessionId s2 = None /\ Home.messages s2 = None)) /\
      (forall s2 : State,
          finishes (onScan c) s s2 ->
          Home.sessionId s2 = None /\ Home.messages s2 = None /\ Home.loading s2 = false).
Proof.
  intros c s Hgate.
  destruct (onScan_runs c s Hgate) as (k & Hrun & Hok & _).
  exists k. split; [exact Hrun|]. split; [reflexivity|]. split; [reflexivity|]. split.
  - intros res result s' Hres Hjson. eexists.
    split; [apply Hok; eassumption|]. repeat split; simpl; auto.
  - intros s2 Hfin. unfold Home.onScan in Hfin. rewrite Hgate in Hfin. simpl in Hfin.
    destruct Hfin as [[e|res] Hfin]; simpl in Hfin; [subst; repeat split|].
    unfold Api.return_json in Hfin.
    destruct (ok res); simpl in Hfin; [|subst; repeat split].
    destruct (json res); simpl in Hfin; subst; repeat split.
Qed.

(** C5.  When the scan request succeeds, the state holds the returned
    [Scan] itself, and the page shows its [url] and [score] as they are
    and one card per finding, in order, each carrying the finding
    unchanged; so there are as many cards as findings, none for an empty
    list.  This holds in whatever state the response arrives. *)
Theorem C5_scan_view_mirrors_response :
  forall (c s : State),
    canScan c = true ->
    exists k,
      run (onScan c) s = (Home.scan_reset s, Awaiting (scan_request c) k) /\
      forall (res : Response (Scan number any)) (result : Scan number any) (s' : State),
        ok res = true -> json res = inr result ->
        exists s2 sec,
          run (k (Responded res)) s' = (s2, Resolved tt) /\
          Home.scan s2 = Some result /\
          Home.scan_section (render s2) = Some sec /\
          Home.shown_url sec = scan_url result /\
          Home.shown_score sec = scan_score result /\
          map Home.card_f (Home.shown_cards sec) = scan_findings result /\
          map Home.card_key (Home.shown_cards sec) = map f_id (scan_findings result) /\
          length (Home.shown_cards sec) = length (scan_findings result).
Proof.
  intros c s Hgate.
  destruct (onScan_runs c s Hgate) as (k & Hrun & Hok & _).
  exists k. split; [exact Hrun|].
  intros res result s' Hres Hjson.
  eexists. eexists. split; [apply Hok; eassumption|].
  split; [reflexivity|]. split; [reflexivity|]. simpl.
  split; [reflexivity|]. split; [reflexivity|].
  rewrite !map_map, length_map. simpl. rewrite map_id.
  repeat split; reflexivity.
Qed.

(** *** The assistant thread *)

Lemma truthy_trim (t : string) :
  JsString.truthy (JsString.trim t) = negb (JsString.blank t).
Proof.
  destruct (JsString.blank t) eqn:Hb.
  - apply truthy_trim_blank, Hb.
  - destruct (JsString.trim t) eqn:Ht; [|reflexivity].
    apply trim_empty_iff_blank in Ht. congruence.
Qed.

(** With a session open and a draft that is not blank,
    [sendToAssistantInline] clears the draft, appends the provisional
    entry, raises the sending flag, posts to [/llm/message] and waits;
    whatever the [fetch] settles to, the handler then finishes, in one of
    two ways. *)
Lemma sendToAssistantInline_runs (c s : State) (sid : string) :
  Home.sessionId c = Some sid ->
  JsString.truthy sid = true ->
  JsString.blank (Home.draft c) = false ->
  exists k,
    run (sendToAssistantInline c) s
    = (Home.send_optimistic (JsString.trim (Home.draft c)) s,
       Awaiting (message_request sid (JsString.trim (Home.draft c))) k) /\
    (forall (res : Response Home.Reply) (resp : Home.Reply) (s' : State),
        ok res = true -> json res = inr resp ->
        run (k (Responded res)) s'
        = (Home.with_sending false
             (Home.with_messages (Some (Home.reply_messages resp)) s'), Resolved tt)) /\
    (forall r : FetchResult Home.Reply,
        match r with
        | Rejected _ => True
        | Responded res => ok res = false \/ exists e, json res = inl e
        end ->
        exists e,
          (forall res, r = Responded res -> ok res = false ->
                       e = Error ("POST /llm/message failed: " ++ pretty (status res))) /\
          forall s' : State,
            run (k r) s'
            = (Home.with_sending false
                 (Home.with_err (Some (message_or e "Assistant error")) s'),
               Resolved tt)).
Proof.
  intros Hsid Htruthy Hdraft. unfold Home.sendToAssistantInline.
  rewrite Hsid, Htruthy, truthy_trim, Hdraft. simpl.
  eexists. split; [reflexivity|]. split.
  - intros res resp s' Hok Hjson. simpl.
    unfold Api.return_json. rewrite Hok, Hjson. reflexivity.
  - intros [e|res] Hfail; simpl.
    + exists e. split; [discriminate|]. reflexivity.
    + unfold Api.return_json. destruct (ok res) eqn:Hok; simpl.
      * destruct Hfail as [Hfail|[e He]]; [discriminate|].
        rewrite He. exists e. split; [|reflexivity].
        intros res' [= <-] Hok'. congruence.
      * eexists. split; [|reflexivity].
        intros res' [= <-] _. reflexivity.
Qed.

(** C1.  A chat send that goes out and is answered with a successful
    response leaves as transcript exactly the [messages] of the response
    body, in whatever state the response arrives: the provisional entry
    and anything else held locally is replaced, nothing is merged. *)
Theorem C1_transcript_replaced_by_server :
  forall (c s : State) (sid : string),
    Home.sessionId c = Some sid ->
    JsString.truthy sid = true ->
    JsString.blank (Home.draft c) = false ->
    exists k,
      run (sendToAssistantInline c) s
      = (Home.send_optimistic (JsString.trim (Home.draft c)) s,
         Awaiting (message_request sid (JsString.trim (Home.draft c))) k) /\
      forall (res : Response Home.Reply) (resp : Home.Reply) (s' : State),
        ok res = true -> json res = inr resp ->
        exists s2,
          run (k (Responded res)) s' = (s2, Resolved tt) /\
          Home.messages s2 = Some (Home.reply_messages resp).
Proof.
  intros c s sid Hsid Htruthy Hdraft.
  destruct (sendToAssistantInline_runs c s sid Hsid Htruthy Hdraft)
    as (k & Hrun & Hok & _).
  exists k. split; [exact Hrun|].
  intros res resp s' Hres Hjson. eexists.
  split; [apply Hok; eassumption|]. reflexivity.
Qed.


(** C8.  A send with a blank draft (empty or white space only) and a scan
    with the gate closed finish without reaching any [fetch]: the two
    sends leave the state as it is, the scan changes the error text and
    nothing else. *)
Theorem C8_guards_issue_no_request :
  (forall c s : State,
      JsString.blank (Home.draft c) = true ->
      run (sendToAssistantInline c) s = (s, Resolved tt)) /\
  (forall (onSend : string -> Async ChatPanel.State unit) (c s : ChatPanel.State),
      JsString.blank (ChatPanel.text c) = true ->
      run (ChatPanel.handleSend onSend c) s = (s, Resolved tt)) /\
  (forall c s : State,
      canScan c = false ->
      run (onScan c) s
      = (Home.with_err
           (Some "Please attest you own or are authorized to test this domain.") s,
         Resolved tt)).
Proof.
  split; [|split].
  - intros c s Hb. unfold Home.sendToAssistantInline.
    destruct (Home.sessionId c); [|reflexivity].
    rewrite truthy_trim, Hb, orb_true_r. reflexivity.
  - intros onSend c s Hb. unfold ChatPanel.handleSend.
    rewrite truthy_trim, Hb. reflexivity.
  - intros c s Hgate. unfold Home.onScan. rewrite Hgate. reflexivity.
Qed.

End HomeFacts.

(* ===================================================================== *)
(** * Worked examples

    The theorems above at the sample values: a page on the allow-listed
    address with an open session, a page on another address, and the
    example scan of the specification. *)

Import Sample.

Lemma C1_witness :
  (Home.sessionId chatting = Some "s-1" /\
   JsString.truthy "s-1" = true /\
   JsString.blank (Home.draft chatting) = false) /\
  exists k s2,
    run (Home.sendToAssistantInline env chatting) chatting
    = (Home.send_optimistic "fix the CSP header" chatting,
       Awaiting (message_request "s-1" "fix the CSP header") k) /\
    run (k (ok_200 reply_body)) (Home.send_optimistic "fix the CSP header" chatting)
    = (s2, Resolved tt) /\
    Home.messages s2 = Some (Home.reply_messages reply_body).
Proof.
  split; [repeat split; reflexivity|].
  destruct (C1_transcript_replaced_by_server env chatting chatting "s-1"
              eq_refl eq_refl eq_refl) as (k & Hrun & Hok).
  destruct (Hok {| ok := true; status := 200; json := inr reply_body |} reply_body
              (Home.send_optimistic "fix the CSP header" chatting) eq_refl eq_refl)
    as (s2 & Hk & Hm).
  exists k, s2. split; [exact Hrun|]. split; [exact Hk|exact Hm].
Defined.


Lemma C2_witness :
  ((Home.hostFromUrl URL_new (Home.url chatting) = "example.com" \/
    Home.hostFromUrl URL_new (Home.url chatting) = "www.example.com") /\
   Home.attest chatting = false /\
   Home.canScan URL_new chatting = true) /\
  (~ (Home.hostFromUrl URL_new (Home.url other_site) = "example.com" \/
      Home.hostFromUrl URL_new (Home.url other_site) = "www.example.com") /\
   (Home.canScan URL_new other_site = true <-> Home.attest other_site = true)).
Proof.
  split.
  - split; [left; reflexivity|]. split; [reflexivity|].
    apply (proj1 (C2_attestation_gate URL_new chatting)). left; reflexivity.
  - assert (H : ~ (Home.hostFromUrl URL_new (Home.url other_site) = "example.com" \/
                   Home.hostFromUrl URL_new (Home.url other_site) = "www.example.com"))
      by (intros [H|H]; vm_compute in H; discriminate).
    split; [exact H|].
    exact (proj2 (C2_attestation_gate URL_new other_site) H).
Defined.

Lemma C7_witness :
  URL_new "not a url" = inl (Error "Invalid URL") /\
  Home.hostFromUrl URL_new "not a url" = "" /\
  Home.canScan URL_new (Home.with_url "not a url" chatting)
  = Home.attest (Home.with_url "not a url" chatting).
Proof.
  split; [reflexivity|].
  destruct (C7_invalid_url_blocks_allow_list (number := number) (any := any)
              URL_new "not a url" (Error "Invalid URL") eq_refl)
    as (Hhost & _ & Hgate).
  split; [exact Hhost|].
  exact (proj2 (Hgate (Home.with_url "not a url" chatting) eq_refl)).
Defined.

Lemma C10_witness :
  (URL_new_opaque "ssh://EXAMPLE.COM" = inr {| host := "EXAMPLE.COM" |} /\
   URL_new_opaque "https://example.com" = inr {| host := "example.com" |} /\
   Caseless.sameIgnoringCase "EXAMPLE.COM" "example.com" = true) /\
  Home.has Home.DEMO_HOSTS (Home.hostFromUrl URL_new_opaque "ssh://EXAMPLE.COM") = true /\
  Home.has Home.DEMO_HOSTS (Home.hostFromUrl URL_new_opaque "ssh://EXAMPLE.COM")
  = Home.has Home.DEMO_HOSTS (Home.hostFromUrl URL_new_opaque "https://example.com") /\
  Home.canScan URL_new_opaque (Home.with_url "ssh://EXAMPLE.COM" chatting)
  = Home.canScan URL_new_opaque chatting.
Proof.
  split; [repeat split; reflexivity|].
  destruct (C10_allow_list_ignores_host_case (number := number) (any := any)
              URL_new_opaque "https://example.com" "ssh://EXAMPLE.COM"
              {| host := "example.com" |} {| host := "EXAMPLE.COM" |}
              eq_refl eq_refl) as (_ & _ & Hcase).
  destruct (C10_allow_list_ignores_host_case (number := number) (any := any)
              URL_new_opaque "ssh://EXAMPLE.COM" "https://example.com"
              {| host := "EXAMPLE.COM" |} {| host := "example.com" |}
              eq_refl eq_refl) as (Hpass & _ & _).
  destruct (Hcase (or_introl eq_refl)) as (Hsame & Hgate).
  split; [apply Hpass; left; reflexivity|]. split; [exact Hsame|].
  apply (Hgate chatting (Home.with_url "ssh://EXAMPLE.COM" chatting));
    reflexivity.
Defined.

Lemma C6_witness :
  Home.canScan URL_new chatting = true /\
  exists k s2,
    run (Home.onScan env URL_new chatting) chatting
    = (Home.scan_reset chatting, Awaiting (Home.scan_request env chatting) k) /\
    run (k (ok_200 scan72)) (Home.scan_reset chatting) = (s2, Resolved tt) /\
    Home.scan s2 = Some scan72 /\
    Home.sessionId s2 = None /\
    Home.messages s2 = None.
Proof.
  split; [reflexivity|].
  destruct (C6_scan_success_sets_only_the_scan env URL_new chatting chatting eq_refl)
    as (k & Hrun & _ & _ & Hok & _).
  destruct (Hok {| ok := true; status := 200; json := inr scan72 |} scan72
              (Home.scan_reset chatting) eq_refl eq_refl)
    as (s2 & Hk & _ & Hscan & _ & _ & _ & Hnone).
  destruct (Hnone eq_refl eq_refl) as (Hsid & Hmsgs).
  exists k, s2. repeat split; assumption.
Defined.

(** Without that condition C6 fails.  On the sample page with an open session:
    [Enter] sends the draft; while that request is awaited the Scan button
    is enabled and a scan is made; the chat reply arrives, then the scan
    succeeds.  The state then holds the returned scan and, as transcript,
    the messages of the chat reply. *)
Lemma C6_counterexample :
  exists (k_send : FetchResult Home.Reply -> Async State unit)
         (k_scan : FetchResult (Scan number any) -> Async State unit)
         (s1 s2 s3 : State),
    Page.fire env URL_new Page.PressEnter chatting
    = Home.sendToAssistantInline env chatting /\
    run (Home.sendToAssistantInline env chatting) chatting
    = (s1, Awaiting (message_request "s-1" "fix the CSP header") k_send) /\
    Home.scan_disabled (Home.render URL_new s1) = false /\
    Page.fire env URL_new Page.ClickScan s1 = Home.onScan env URL_new s1 /\
    run (Home.onScan env URL_new s1) s1
    = (Home.scan_reset s1, Awaiting (Home.scan_request env s1) k_scan) /\
    run (k_send (ok_200 reply_body)) (Home.scan_reset s1) = (s2, Resolved tt) /\
    run (k_scan (ok_200 scan72)) s2 = (s3, Resolved tt) /\
    Home.scan s3 = Some scan72 /\
    Home.messages s3 = Some (Home.reply_messages reply_body) /\
    Home.messages s3 <> None.
Proof.
  do 5 eexists.
  split; [reflexivity|]. split; [reflexivity|]. split; [reflexivity|].
  split; [reflexivity|]. split; [reflexivity|]. split; [reflexivity|].
  split; [reflexivity|]. split; [reflexivity|]. split; [reflexivity|].
  discriminate.
Qed.

Lemma C5_witness :
  Home.canScan URL_new chatting = true /\
  exists k s2 sec,
    run (Home.onScan env URL_new chatting) chatting
    = (Home.scan_reset chatting, Awaiting (Home.scan_request env chatting) k) /\
    run (k (ok_200 scan72)) (Home.scan_reset chatting) = (s2, Resolved tt) /\
    Home.scan_section (Home.render URL_new s2) = Some sec /\
    Home.shown_url sec = "https://example.com" /\
    Home.shown_score sec = 72%Z /\
    length (Home.shown_cards sec) = 0.
Proof.
  split; [reflexivity|].
  destruct (C5_scan_view_mirrors_response env URL_new chatting chatting eq_refl)
    as (k & Hrun & Hok).
  destruct (Hok {| ok := true; status := 200; json := inr scan72 |} scan72
              (Home.scan_reset chatting) eq_refl eq_refl)
    as (s2 & sec & Hk & _ & Hsec & Hurl & Hscore & _ & _ & Hlen).
  exists k, s2, sec. repeat split; assumption.
Defined.

Lemma C8_witness :
  (JsString.blank (Home.draft blank_draft) = true /\
   run (Home.sendToAssistantInline env blank_draft) blank_draft
   = (blank_draft, Resolved tt)) /\
  (JsString.blank (ChatPanel.text blank_panel) = true /\
   run (ChatPanel.handleSend (fun _ => Ret tt) blank_panel) blank_panel
   = (blank_panel, Resolved tt)) /\
  (Home.canScan URL_new other_site = false /\
   run (Home.onScan env URL_new other_site) other_site
   = (Home.with_err
        (Some "Please attest you own or are authorized to test this domain.")
        other_site,
      Resolved tt)).
Proof.
  destruct (C8_guards_issue_no_request (number := number) (any := any) env URL_new)
    as (Hinline & Hpanel & Hscan).
  split; [|split].
  - split; [reflexivity|]. apply Hinline. reflexivity.
  - split; [reflexivity|]. apply Hpanel. reflexivity.
  - split; [reflexivity|]. apply Hscan. reflexivity.
Defined.

(* ===================================================================== *)
(** * Further properties of the code *)

(** ** Trimmed text *)

Section TrimFacts.
Import JsString.

Lemma trimStart_head s a t : trimStart s = String a t -> isWhiteSpace a = false.
Proof.
  induction s as [|b s IH]; simpl; [discriminate|].
  destruct (isWhiteSpace b) eqn:Hb; [exact IH|].
  intros [= <- <-]. exact Hb.
Qed.

Lemma trimEnd_cons_solid a t :
  isWhiteSpace a = false -> trimEnd (String a t) = String a (trimEnd t).
Proof. intros Ha. simpl. rewrite Ha. destruct (trimEnd t); reflexivity. Qed.

Lemma trimEnd_idem s : trimEnd (trimEnd s) = trimEnd s.
Proof.
  induction s as [|a s IH]; simpl; [reflexivity|].
  destruct (trimEnd s) as [|b t] eqn:Ht.
  - destruct (isWhiteSpace a) eqn:Ha; simpl; [reflexivity|]. rewrite Ha. reflexivity.
  - simpl in IH. simpl. destruct (trimEnd t) as [|b' t'] eqn:Ht'.
    + destruct (isWhiteSpace b) eqn:Hb; [discriminate|]. injection IH as <-. reflexivity.
    + rewrite IH. reflexivity.
Qed.

Lemma trimStart_solid a t : isWhiteSpace a = false -> trimStart (String a t) = String a t.
Proof. intros Ha. simpl. rewrite Ha. reflexivity. Qed.

(** Trimming a trimmed text changes nothing, at either end. *)
Lemma trim_fixed s :
  trimStart (trim s) = trim s /\ trimEnd (trim s) = trim s /\ trim (trim s) = trim s.
Proof.
  unfold trim.
  assert (Hstart : trimStart (trimEnd (trimStart s)) = trimEnd (trimStart s)).
  { destruct (trimStart s) as [|a t] eqn:Hs; [reflexivity|].
    pose proof (trimStart_head _ _ _ Hs) as Ha.
    rewrite trimEnd_cons_solid by exact Ha. apply trimStart_solid, Ha. }
  split; [exact Hstart|]. split; [apply trimEnd_idem|].
  rewrite Hstart. apply trimEnd_idem.
Qed.

(** A text that is not blank trims to a text that is not blank. *)
Lemma trim_not_blank s : blank s = false -> blank (trim s) = false.
Proof.
  intros Hb. destruct (blank (trim s)) eqn:Ht; [|reflexivity].
  apply trim_empty_iff_blank in Ht.
  destruct (trim_fixed s) as (_ & _ & Hfix). rewrite Hfix in Ht.
  apply trim_empty_iff_blank in Ht. congruence.
Qed.

End TrimFacts.

(** ** The base address *)

(** X1.  Whatever the configuration, the base address is not empty: a
    configured value that is not empty is used as it is, and a missing or
    empty one gives the local default.  Both helpers address their one
    request to the base address followed by the path. *)
Theorem X1_api_base_never_empty :
  (forall v : string, JsString.truthy v = true -> Api.API_BASE (Some v) = v) /\
  Api.API_BASE (Some "") = "http://localhost:8000" /\
  Api.API_BASE None = "http://localhost:8000" /\
  forall (env : option string) (path : string),
    JsString.truthy (Api.API_BASE env) = true /\
    Api.API_BASE env <> "" /\
    req_url (Api.get_request env path) = Api.API_BASE env ++ path /\
    forall (B : Type) (body : B),
      req_url (Api.post_request env path body) = Api.API_BASE env ++ path.
Proof.
  split; [|split; [reflexivity|split; [reflexivity|]]].
  - intros v Hv. unfold Api.API_BASE. rewrite Hv. reflexivity.
  - intros env path. unfold Api.API_BASE.
    destruct env as [[|a v]|]; simpl; repeat split; discriminate.
Qed.

Lemma X1_witness :
  JsString.truthy "https://api.example.com" = true /\
  Api.API_BASE (Some "https://api.example.com") = "https://api.example.com".
Proof.
  split; [reflexivity|].
  apply (proj1 X1_api_base_never_empty). reflexivity.
Defined.

(** ** The colour of the score *)

Lemma Qle_bool_false_lt (c q : Q) : Qle_bool c q = false -> (q < c)%Q.
Proof.
  intros H. apply Qnot_le_lt. intros Hle. apply Qle_bool_iff in Hle. congruence.
Qed.

(** Two bounds on the score that cannot both hold. *)
Ltac score_absurd :=
  match goal with
  | Hlt : (?q < ?a)%Q, Hle : (?b <= ?q)%Q |- _ =>
      exfalso; apply (Qlt_not_le _ _ Hlt); eapply Qle_trans; [|exact Hle];
      vm_compute; intro; discriminate
  end.

Ltac score_bands :=
  repeat match goal with
         | |- _ /\ _ => split
         | |- _ <-> _ => split
         | |- (_ <= _)%Q => first [assumption | (eapply Qle_trans; [|eassumption]; vm_compute; intro; discriminate)]
         | |- (_ < _)%Q => assumption
         | |- _ = _ => reflexivity
         | |- _ = _ -> _ => discriminate
         | |- _ -> _ => intro
         | H : _ /\ _ |- _ => destruct H
         end;
  try score_absurd.

(** X2.  The four colours are bands of the score: gold from 99 up, green
    from 65 up to 99, yellow from 50 up to 65, red below 50; the bands do
    not overlap.  Positive infinity is gold; negative infinity and
    not-a-number are red. *)
Theorem X2_score_colour_bands :
  (forall q : Q,
      (Score.scoreColor (Score.Finite q)
       = "text-amber-500 drop-shadow-[0_0_2px_rgba(251,191,36,0.6)]"
       <-> (99 <= q)%Q) /\
      (Score.scoreColor (Score.Finite q) = "text-emerald-600"
       <-> (65 <= q)%Q /\ (q < 99)%Q) /\
      (Score.scoreColor (Score.Finite q) = "text-yellow-500"
       <-> (50 <= q)%Q /\ (q < 65)%Q) /\
      (Score.scoreColor (Score.Finite q) = "text-red-600" <-> (q < 50)%Q)) /\
  Score.scoreColor Score.PosInfinity
  = "text-amber-500 drop-shadow-[0_0_2px_rgba(251,191,36,0.6)]" /\
  Score.scoreColor Score.NegInfinity = "text-red-600" /\
  Score.scoreColor Score.NaN = "text-red-600".
Proof.
  split; [|repeat split; reflexivity].
  intros q. unfold Score.scoreColor, Score.geq.
  change (inject_Z 99) with 99%Q. change (inject_Z 65) with 65%Q.
  change (inject_Z 50) with 50%Q.
  destruct (Qle_bool 99 q) eqn:H99; [apply Qle_bool_iff in H99|];
    [|apply Qle_bool_false_lt in H99; destruct (Qle_bool 65 q) eqn:H65;
      [apply Qle_bool_iff in H65|];
      [|apply Qle_bool_false_lt in H65; destruct (Qle_bool 50 q) eqn:H50;
        [apply Qle_bool_iff in H50|apply Qle_bool_false_lt in H50]]];
    score_bands.
Qed.

Example score_72_is_green : Score.scoreColor (Score.Finite 72) = "text-emerald-600".
Proof. reflexivity. Qed.

(** ** The page: what is on display *)

Section PageFacts.

Context {number any : Type}.
Context (env : option string) (URL_new : string -> Thrown + URL).

Abbreviation State := (Home.State number any).
Abbreviation canScan := (Home.canScan URL_new).
Abbreviation onScan := (Home.onScan env URL_new).
Abbreviation startAssistant := (Home.startAssistant env).
Abbreviation sendToAssistantInline := (Home.sendToAssistantInline env).
Abbreviation render := (Home.render URL_new).
Abbreviation fire := (Page.fire env URL_new).
Abbreviation reachable := (Page.reachable env URL_new).
Abbreviation scan_request := (Home.scan_request (number := number) (any := any) env).
Abbreviation message_request := (Home.message_request number any env).
Abbreviation session_request := (Page.session_request (number := number) (any := any) env).

(** X3.  Whenever the gate is closed the attestation checkbox is in the
    markup (and unticked) and the Scan button is disabled; when the
    checkbox is not in the markup the gate is open; and an enabled Scan
    button means that no scan is loading and the gate is open. *)
Theorem X3_closed_gate_shows_checkbox :
  forall s : State,
    (canScan s = false ->
     Home.attestation_shown (render s) = true /\
     Home.attest s = false /\
     Home.scan_disabled (render s) = true) /\
    (Home.attestation_shown (render s) = false -> canScan s = true) /\
    (Home.scan_disabled (render s) = false ->
     Home.loading s = false /\ canScan s = true).
Proof.
  intros s. unfold Home.render, Home.canScan. simpl.
  destruct (Home.has Home.DEMO_HOSTS (Home.hostFromUrl URL_new (Home.url s)));
    destruct (Home.attest s); destruct (Home.loading s); simpl;
    repeat split; auto; discriminate.
Qed.

(** X4.  An edit of the URL input that changes the URL leaves no error on
    display: the effect tied to [url] clears a non-empty error text, and an
    empty one is not displayed anyway; no other cell but [url] and [err]
    changes.  An edit that does not change the URL changes nothing. *)
Theorem X4_url_edit_hides_error :
  forall (v : string) (s s' : State),
    finishes (fire (Page.EditUrl v) s) s s' ->
    (v <> Home.url s ->
     Home.error_banner (render s') = None /\
     Home.url s' = v /\
     s' = Home.with_err (if JsString.truthy_opt (Home.err s) then None else Home.err s)
            (Home.with_url v s)) /\
    (v = Home.url s -> s' = s).
Proof.
  intros v s s' H. unfold Page.fire in H.
  destruct (bool_decide (v = Home.url s)) eqn:Hv.
  - apply bool_decide_eq_true in Hv. simpl in H. subst s'.
    split; [intros Hne; contradiction|reflexivity].
  - apply bool_decide_eq_false in Hv. split; [intros _|intros Heq; contradiction].
    unfold Home.clearErrOnUrlChange in H. clear Hv.
    destruct s as [u sc l e a sid ms d sg]. simpl in H.
    destruct e as [[|c e]|]; simpl in H; subst s'; repeat split; reflexivity.
Qed.

End PageFacts.

Lemma X3_witness :
  Home.canScan URL_new other_site = false /\
  Home.attestation_shown (Home.render URL_new other_site) = true /\
  Home.scan_disabled (Home.render URL_new other_site) = true.
Proof.
  split; [reflexivity|].
  destruct (proj1 (X3_closed_gate_shows_checkbox URL_new other_site) eq_refl)
    as (Hbox & _ & Hbutton).
  split; assumption.
Defined.

Lemma X4_witness :
  "https://mysite.io" <> Home.url failed /\
  Home.error_banner (Home.render URL_new failed) = Some "POST /scan failed: 500" /\
  forall s' : State,
    finishes (Page.fire env URL_new (Page.EditUrl "https://mysite.io") failed) failed s' ->
    Home.error_banner (Home.render URL_new s') = None.
Proof.
  assert (Hne : "https://mysite.io" <> Home.url failed) by discriminate.
  split; [exact Hne|]. split; [reflexivity|].
  intros s' H.
  exact (proj1 (proj1 (X4_url_edit_hides_error env URL_new _ failed s' H) Hne)).
Defined.

(** ** Scanning and starting the assistant *)

Section FlowFacts.

Context {number any : Type}.
Context (env : option string) (URL_new : string -> Thrown + URL).

Abbreviation State := (Home.State number any).
Abbreviation canScan := (Home.canScan URL_new).
Abbreviation onScan := (Home.onScan env URL_new).
Abbreviation startAssistant := (Home.startAssistant env).
Abbreviation sendToAssistantInline := (Home.sendToAssistantInline env).
Abbreviation render := (Home.render URL_new).
Abbreviation fire := (Page.fire env URL_new).
Abbreviation reachable := (Page.reachable env URL_new).
Abbreviation scan_request := (Home.scan_request (number := number) (any := any) env).
Abbreviation message_request := (Home.message_request number any env).
Abbreviation session_request := (Page.session_request (number := number) (any := any) env).


(** X6.  A scan whose request fails does not bring the previous scan or
    chat session back.  The scan, the session identifier and the transcript
    are [null] when the request goes out, and the failure path sets only
    the error text and the loading flag, in whatever state the failure
    arrives: the text is the message of the rejection for a rejected
    [fetch] and of the decoding error for a body that does not decode
    ([Scan failed] when that value has no message), and names [/scan] and
    the status for a response that is not [ok].  When the failure meets the
    state the request left behind, the page ends with no scan, no session
    and no transcript, and shows no scan section. *)
Theorem X6_failed_scan_drops_previous_results :
  forall c s : State,
    canScan c = true ->
    exists k,
      run (onScan c) s = (Home.scan_reset s, Awaiting (scan_request c) k) /\
      Home.scan (Home.scan_reset s) = None /\
      Home.sessionId (Home.scan_reset s) = None /\
      Home.messages (Home.scan_reset s) = None /\
      (forall (e : Thrown) (s' : State),
          run (k (Rejected e)) s'
          = (Home.with_loading false
               (Home.with_err (Some (message_or e "Scan failed")) s'), Resolved tt)) /\
      (forall (res : Response (Scan number any)) (s' : State),
          ok res = false ->
          run (k (Responded res)) s'
          = (Home.with_loading false
               (Home.with_err (Some ("POST /scan failed: " ++ pretty (status res))) s'),
             Resolved tt)) /\
      (forall (res : Response (Scan number any)) (e : Thrown) (s' : State),
          ok res = true -> json res = inl e ->
          run (k (Responded res)) s'
          = (Home.with_loading false
               (Home.with_err (Some (message_or e "Scan failed")) s'), Resolved tt)) /\
      forall r : FetchResult (Scan number any),
        match r with
        | Rejected _ => True
        | Responded res => ok res = false \/ exists e, json res = inl e
        end ->
        (forall s' : State,
            exists s2,
              run (k r) s' = (s2, Resolved tt) /\
              Home.scan s2 = Home.scan s' /\
              Home.sessionId s2 = Home.sessionId s' /\
              Home.messages s2 = Home.messages s' /\
              Home.loading s2 = false /\
              is_Some (Home.err s2)) /\
        exists s2,
          run (k r) (Home.scan_reset s) = (s2, Resolved tt) /\
          Home.scan s2 = None /\
          Home.sessionId s2 = None /\
          Home.messages s2 = None /\
          Home.scan_section (render s2) = None.
Proof.
  intros c s Hgate. unfold Home.onScan. rewrite Hgate. simpl.
  eexists. split; [reflexivity|].
  split; [reflexivity|]. split; [reflexivity|]. split; [reflexivity|].
  split; [intros e s'; reflexivity|].
  split; [intros res s' Hok; simpl; rewrite Hok; reflexivity|].
  split.
  { intros res e s' Hok Hjson. simpl. unfold Api.return_json.
    rewrite Hok, Hjson. reflexivity. }
  intros r Hr.
  assert (Hdone : forall (m : string) (s' : State),
             exists s2 : State,
               (Home.with_loading false (Home.with_err (Some m) s'),
                Resolved (St := State) tt) = (s2, Resolved tt) /\
               Home.scan s2 = Home.scan s' /\
               Home.sessionId s2 = Home.sessionId s' /\
               Home.messages s2 = Home.messages s' /\
               Home.loading s2 = false /\
               is_Some (Home.err s2)).
  { intros m s'. eexists. split; [reflexivity|].
    repeat split. eexists. reflexivity. }
  destruct r as [e|res]; simpl.
  - split; [intros s'; apply Hdone|].
    eexists. split; [reflexivity|]. repeat split.
  - unfold Api.return_json. destruct (ok res) eqn:Hok; simpl.
    + destruct Hr as [Hr|[e He]]; [discriminate|]. rewrite He.
      split; [intros s'; apply Hdone|].
      eexists. split; [reflexivity|]. repeat split.
    + split; [intros s'; apply Hdone|].
      eexists. split; [reflexivity|]. repeat split.
Qed.

(** With a scan on the page, [startAssistant] clears the error text, posts
    the scan of its render and the model name to [/llm/session] and waits;
    whatever the [fetch] settles to, the handler then finishes, in one of
    two ways. *)
Lemma startAssistant_runs (c s : State) (sc : Scan number any) :
  Home.scan c = Some sc ->
  exists k,
    run (startAssistant c) s = (Home.with_err None s, Awaiting (session_request sc) k) /\
    (forall (res : Response Home.Boot) (boot : Home.Boot) (s' : State),
        ok res = true -> json res = inr boot ->
        run (k (Responded res)) s'
        = (Home.with_messages (Some (Home.boot_messages boot))
             (Home.with_sessionId (Some (Home.boot_session_id boot)) s'), Resolved tt)) /\
    (forall r : FetchResult Home.Boot,
        match r with
        | Rejected _ => True
        | Responded res => ok res = false \/ exists e, json res = inl e
        end ->
        exists e,
          (forall res, r = Responded res -> ok res = false ->
                       e = Error ("POST /llm/session failed: " ++ pretty (status res))) /\
          forall s' : State,
            run (k r) s'
            = (Home.with_err (Some (message_or e "Assistant failed to start")) s',
               Resolved tt)).
Proof.
  intros Hscan. unfold Home.startAssistant. rewrite Hscan. simpl.
  eexists. split; [reflexivity|]. split.
  - intros res boot s' Hok Hjson. simpl.
    unfold Api.return_json. rewrite Hok, Hjson. reflexivity.
  - intros [e|res] Hfail; simpl.
    + exists e. split; [discriminate|]. reflexivity.
    + unfold Api.return_json. destruct (ok res) eqn:Hok; simpl.
      * destruct Hfail as [Hfail|[e He]]; [discriminate|].
        rewrite He. exists e. split; [|reflexivity].
        intros res' [= <-] Hok'. congruence.
      * eexists. split; [|reflexivity].
        intros res' [= <-] _. reflexivity.
Qed.

(** X7.  The two guards of the assistant: without a scan [startAssistant]
    returns at once, and without a session identifier ([null], or the empty
    string) [sendToAssistantInline] returns at once whatever the draft.
    Neither reaches a [fetch] or touches the state, so the draft is kept. *)
Theorem X7_assistant_guards :
  (forall c s : State,
      Home.scan c = None -> run (startAssistant c) s = (s, Resolved tt)) /\
  (forall c s : State,
      JsString.truthy_opt (Home.sessionId c) = false ->
      run (sendToAssistantInline c) s = (s, Resolved tt)).
Proof.
  split.
  - intros c s H. unfold Home.startAssistant. rewrite H. reflexivity.
  - intros c s H. unfold Home.sendToAssistantInline.
    destruct (Home.sessionId c) as [sid|]; [|reflexivity].
    simpl in H. rewrite H. reflexivity.
Qed.

(** X8.  A session start that succeeds sets the session identifier and the
    transcript to those of the response body and nothing else, in whatever
    state the response arrives.  The thread is then on the page exactly
    when that state holds a scan and the identifier is not empty: a session
    with an empty identifier is never shown. *)
Theorem X8_session_start_success :
  forall (c s : State) (sc : Scan number any),
    Home.scan c = Some sc ->
    exists k,
      run (startAssistant c) s = (Home.with_err None s, Awaiting (session_request sc) k) /\
      req_body (session_request sc) = Some (Home.SessionBody sc "gpt-4o-mini") /\
      forall (res : Response Home.Boot) (boot : Home.Boot) (s' : State),
        ok res = true -> json res = inr boot ->
        exists s2,
          run (k (Responded res)) s' = (s2, Resolved tt) /\
          s2 = Home.with_messages (Some (Home.boot_messages boot))
                 (Home.with_sessionId (Some (Home.boot_session_id boot)) s') /\
          Home.sessionId s2 = Some (Home.boot_session_id boot) /\
          Home.messages s2 = Some (Home.boot_messages boot) /\
          Page.thread_shown URL_new s2
          = match Home.scan s' with
            | Some _ => JsString.truthy (Home.boot_session_id boot)
            | None => false
            end.
Proof.
  intros c s sc Hscan.
  destruct (startAssistant_runs c s sc Hscan) as (k & Hrun & Hok & _).
  exists k. split; [exact Hrun|]. split; [reflexivity|].
  intros res boot s' Hres Hjson. eexists.
  split; [apply Hok; eassumption|]. split; [reflexivity|].
  split; [reflexivity|]. split; [reflexivity|].
  unfold Page.thread_shown, Home.render. simpl.
  destruct (Home.scan s'); [|reflexivity]. simpl.
  destruct (JsString.truthy (Home.boot_session_id boot)); reflexivity.
Qed.

(** X9.  A session start that fails changes the error text and nothing
    else, in whatever state the failure arrives: the scan, the session
    identifier and the transcript stay as they are.  The text is the
    message of the rejection for a rejected [fetch] and of the decoding
    error for a body that does not decode ([Assistant failed to start] when
    that value has no message), and names [/llm/session] and the status for
    a response that is not [ok]. *)
Theorem X9_session_start_failure :
  forall (c s : State) (sc : Scan number any),
    Home.scan c = Some sc ->
    exists k,
      run (startAssistant c) s = (Home.with_err None s, Awaiting (session_request sc) k) /\
      (forall (e : Thrown) (s' : State),
          run (k (Rejected e)) s'
          = (Home.with_err (Some (message_or e "Assistant failed to start")) s',
             Resolved tt)) /\
      (forall (res : Response Home.Boot) (s' : State),
          ok res = false ->
          run (k (Responded res)) s'
          = (Home.with_err
               (Some ("POST /llm/session failed: " ++ pretty (status res))) s',
             Resolved tt)) /\
      (forall (res : Response Home.Boot) (e : Thrown) (s' : State),
          ok res = true -> json res = inl e ->
          run (k (Responded res)) s'
          = (Home.with_err (Some (message_or e "Assistant failed to start")) s',
             Resolved tt)) /\
      forall r : FetchResult Home.Boot,
        match r with
        | Rejected _ => True
        | Responded res => ok res = false \/ exists e, json res = inl e
        end ->
        forall s' : State,
          exists s2,
            run (k r) s' = (s2, Resolved tt) /\
            Home.scan s2 = Home.scan s' /\
            Home.sessionId s2 = Home.sessionId s' /\
            Home.messages s2 = Home.messages s' /\
            Home.loading s2 = Home.loading s' /\
            Home.sending s2 = Home.sending s' /\
            Home.draft s2 = Home.draft s' /\
            Home.url s2 = Home.url s' /\
            Home.attest s2 = Home.attest s' /\
            is_Some (Home.err s2).
Proof.
  intros c s sc Hscan. unfold Home.startAssistant. rewrite Hscan. simpl.
  eexists. split; [reflexivity|].
  split; [intros e s'; reflexivity|].
  split; [intros res s' Hok; simpl; rewrite Hok; reflexivity|].
  split.
  { intros res e s' Hok Hjson. simpl. unfold Api.return_json.
    rewrite Hok, Hjson. reflexivity. }
  intros r Hr s'.
  destruct r as [e|res]; simpl.
  - eexists. split; [reflexivity|]. repeat split. eexists. reflexivity.
  - unfold Api.return_json. destruct (ok res) eqn:Hok; simpl.
    + destruct Hr as [Hr|[e He]]; [discriminate|]. rewrite He.
      eexists. split; [reflexivity|]. repeat split. eexists. reflexivity.
    + eexists. split; [reflexivity|]. repeat split. eexists. reflexivity.
Qed.

End FlowFacts.

(** ** Sending to the assistant *)

Section SendFacts.

Context {number any : Type}.
Context (env : option string) (URL_new : string -> Thrown + URL).

Abbreviation State := (Home.State number any).
Abbreviation sendToAssistantInline := (Home.sendToAssistantInline env).
Abbreviation render := (Home.render URL_new).
Abbreviation fire := (Page.fire env URL_new).
Abbreviation message_request := (Home.message_request number any env).

(** X10.  The message a send posts is the draft trimmed: it is not blank,
    trimming it again at either end changes nothing, and it goes out with
    the session identifier of the handler's render and the model name.  By
    then the draft is empty and the sending flag is up. *)
Theorem X10_send_posts_trimmed_draft :
  forall (c s : State) (sid : string),
    Home.sessionId c = Some sid ->
    JsString.truthy sid = true ->
    JsString.blank (Home.draft c) = false ->
    exists (k : FetchResult Home.Reply -> Async State unit) (t : string),
      t = JsString.trim (Home.draft c) /\
      run (sendToAssistantInline c) s
      = (Home.send_optimistic t s, Awaiting (message_request sid t) k) /\
      req_body (message_request sid t) = Some (Home.MessageBody sid t "gpt-4o-mini") /\
      req_url (message_request sid t) = Api.API_BASE env ++ "/llm/message" /\
      JsString.blank t = false /\
      JsString.trimStart t = t /\
      JsString.trimEnd t = t /\
      Home.draft (Home.send_optimistic t s) = "" /\
      Home.sending (Home.send_optimistic t s) = true.
Proof.
  intros c s sid Hsid Htruthy Hdraft.
  destruct (sendToAssistantInline_runs env c s sid Hsid Htruthy Hdraft)
    as (k & Hrun & _).
  exists k, (JsString.trim (Home.draft c)).
  destruct (trim_fixed (Home.draft c)) as (Hstart & Hend & _).
  split; [reflexivity|]. split; [exact Hrun|].
  split; [reflexivity|]. split; [reflexivity|].
  split; [apply trim_not_blank, Hdraft|].
  split; [exact Hstart|]. split; [exact Hend|]. split; reflexivity.
Qed.

(** Every way the [fetch] of a send can settle is a success or a failure. *)
Lemma reply_cases (r : FetchResult Home.Reply) :
  (exists res resp, r = Responded res /\ ok res = true /\ json res = inr resp) \/
  match r with
  | Rejected _ => True
  | Responded res => ok res = false \/ exists e, json res = inl e
  end.
Proof.
  destruct r as [e|res]; [right; exact I|].
  destruct (ok res) eqn:Hok; [|right; left; reflexivity].
  destruct (json res) as [e|resp] eqn:Hjson.
  - right. right. exists e. reflexivity.
  - left. exists res, resp. repeat split; assumption.
Qed.

(** X11.  A reply that arrives after the session was closed (as a scan does
    before its request) does not reopen it: however the [fetch] of the send
    settles, the session identifier stays [null] and the scan is not
    touched, so the thread is not on the page and [Enter] in the draft
    input calls nothing. *)
Theorem X11_late_reply_does_not_reopen_session :
  forall (c s : State) (sid : string),
    Home.sessionId c = Some sid ->
    JsString.truthy sid = true ->
    JsString.blank (Home.draft c) = false ->
    exists k,
      run (sendToAssistantInline c) s
      = (Home.send_optimistic (JsString.trim (Home.draft c)) s,
         Awaiting (message_request sid (JsString.trim (Home.draft c))) k) /\
      forall (r : FetchResult Home.Reply) (s' : State),
        Home.sessionId s' = None ->
        exists s2,
          run (k r) s' = (s2, Resolved tt) /\
          Home.sessionId s2 = None /\
          Home.scan s2 = Home.scan s' /\
          Page.thread_shown URL_new s2 = false /\
          fire Page.PressEnter s2 = Ret tt.
Proof.
  intros c s sid Hsid Htruthy Hdraft.
  destruct (sendToAssistantInline_runs env c s sid Hsid Htruthy Hdraft)
    as (k & Hrun & Hok & Hfail).
  exists k. split; [exact Hrun|].
  intros r s' Hnone.
  assert (Hhidden : forall s2 : State,
             Home.sessionId s2 = None ->
             Page.thread_shown URL_new s2 = false /\ fire Page.PressEnter s2 = Ret tt).
  { intros s2 H2.
    assert (Hth : Page.thread_shown URL_new s2 = false).
    { unfold Page.thread_shown, Home.render. simpl. rewrite H2.
      destruct (Home.scan s2); reflexivity. }
    split; [exact Hth|]. unfold Page.fire. rewrite Hth. reflexivity. }
  destruct (reply_cases r) as [(res & resp & -> & Hres & Hjson)|Hr].
  - eexists. split; [apply Hok; eassumption|].
    split; [exact Hnone|]. split; [reflexivity|]. apply Hhidden. exact Hnone.
  - destruct (Hfail r Hr) as (e & _ & He).
    eexists. split; [apply He|].
    split; [exact Hnone|]. split; [reflexivity|]. apply Hhidden. exact Hnone.
Qed.

(** X12.  Two sends, the second made while the first is awaited: the two
    provisional entries follow the transcript in the order sent, because
    the append reads the transcript of the moment.  When the first reply
    arrives it replaces all of it, the second provisional entry included,
    and lowers the sending flag although the second request is still
    awaited. *)
Theorem X12_overlapping_sends :
  forall (s : State) (sid d2 : string),
    Home.sessionId s = Some sid ->
    JsString.truthy sid = true ->
    JsString.blank (Home.draft s) = false ->
    JsString.blank d2 = false ->
    exists (k1 k2 : FetchResult Home.Reply -> Async State unit) (s1 s1' : State),
      s1 = Home.send_optimistic (JsString.trim (Home.draft s)) s /\
      s1' = Home.with_draft d2 s1 /\
      run (sendToAssistantInline s) s
      = (s1, Awaiting (message_request sid (JsString.trim (Home.draft s))) k1) /\
      run (sendToAssistantInline s1') s1'
      = (Home.send_optimistic (JsString.trim d2) s1',
         Awaiting (message_request sid (JsString.trim d2)) k2) /\
      Home.messages (Home.send_optimistic (JsString.trim d2) s1')
      = Some (default [] (Home.messages s)
                ++ [Home.provisional (JsString.trim (Home.draft s));
                    Home.provisional (JsString.trim d2)])%list /\
      forall (res : Response Home.Reply) (resp : Home.Reply),
        ok res = true -> json res = inr resp ->
        exists s3,
          run (k1 (Responded res)) (Home.send_optimistic (JsString.trim d2) s1')
          = (s3, Resolved tt) /\
          Home.messages s3 = Some (Home.reply_messages resp) /\
          Home.sending s3 = false.
Proof.
  intros s sid d2 Hsid Htruthy Hdraft Hd2.
  destruct (sendToAssistantInline_runs env s s sid Hsid Htruthy Hdraft)
    as (k1 & Hrun1 & Hok1 & _).
  set (s1 := Home.send_optimistic (JsString.trim (Home.draft s)) s) in *.
  destruct (sendToAssistantInline_runs env (Home.with_draft d2 s1) (Home.with_draft d2 s1)
              sid Hsid Htruthy Hd2) as (k2 & Hrun2 & _).
  exists k1, k2, s1, (Home.with_draft d2 s1).
  split; [reflexivity|]. split; [reflexivity|].
  split; [exact Hrun1|]. split; [exact Hrun2|]. split.
  - simpl. unfold Home.append_entry. destruct (Home.messages s); simpl;
      rewrite <- ?app_assoc; reflexivity.
  - intros res resp Hres Hjson. eexists.
    split; [apply Hok1; eassumption|]. split; reflexivity.
Qed.

End SendFacts.

(** ** The page between actions *)

Section RestFacts.

Context {number any : Type}.
Context (env : option string) (URL_new : string -> Thrown + URL).

Abbreviation State := (Home.State number any).
Abbreviation render := (Home.render URL_new).
Abbreviation fire := (Page.fire env URL_new).
Abbreviation reachable := (Page.reachable env URL_new).

Lemma at_rest_initial : Page.at_rest (Home.initial (number := number) (any := any)).
Proof.
  unfold Page.at_rest. simpl. repeat split; auto. intros [x Hx]. discriminate.
Qed.

Ltac rest_done :=
  unfold Page.at_rest in *; simpl in *; subst; simpl in *;
  intuition (first [ discriminate
                   | congruence
                   | (eexists; reflexivity)
                   | match goal with
                     | H : is_Some None |- _ => destruct H; discriminate
                     end
                   | eauto ]).

Lemma at_rest_send (s s' : State) :
  Page.at_rest s ->
  finishes (Home.sendToAssistantInline env s) s s' ->
  Page.at_rest s'.
Proof.
  intros Hs H. destruct s as [u sc l e at_ sid ms d sg].
  unfold Home.sendToAssistantInline in H. simpl in H.
  destruct sid as [sid|]; simpl in H; [|subst; exact Hs].
  destruct (negb (JsString.truthy sid) || negb (JsString.truthy (JsString.trim d)));
    simpl in H; [subst; exact Hs|].
  unfold Home.append_entry in H.
  destruct H as [[e0|res] H]; simpl in H; [destruct ms; subst; rest_done|].
  unfold Api.return_json in H.
  destruct (ok res); simpl in H; [|destruct ms; subst; rest_done].
  destruct (json res); simpl in H; destruct ms; subst; rest_done.
Qed.

(** Every action carried to its end keeps the page at rest. *)
Lemma at_rest_step (a : Page.Action) (s s' : State) :
  Page.at_rest s -> finishes (fire a s) s s' -> Page.at_rest s'.
Proof.
  intros Hs H. destruct s as [u sc l e at_ sid ms d sg].
  destruct a; unfold Page.fire in H.
  - (* EditUrl *)
    destruct (bool_decide _); simpl in H; [subst; exact Hs|].
    unfold Home.clearErrOnUrlChange in H. simpl in H.
    destruct e as [[|c0 e]|]; simpl in H; subst; rest_done.
  - (* ToggleAttest *)
    destruct (Home.attestation_shown _); simpl in H; subst; rest_done.
  - (* ClickScan *)
    destruct (Home.scan_disabled _) eqn:Hdis; simpl in H; [subst; exact Hs|].
    unfold Home.render in Hdis. simpl in Hdis.
    apply orb_false_iff in Hdis. destruct Hdis as [_ Hgate].
    apply negb_false_iff in Hgate.
    unfold Home.onScan in H. rewrite Hgate in H. simpl in H.
    destruct H as [[e0|res] H]; simpl in H; [subst; rest_done|].
    unfold Api.return_json in H.
    destruct (ok res); simpl in H; [|subst; rest_done].
    destruct (json res); simpl in H; subst; rest_done.
  - (* ClickStartAssistant *)
    unfold Home.render in H. simpl in H.
    destruct sc as [sc|]; simpl in H; [|subst; exact Hs].
    unfold Home.startAssistant in H. simpl in H.
    destruct H as [[e0|res] H]; simpl in H; [subst; rest_done|].
    unfold Api.return_json in H.
    destruct (ok res); simpl in H; [|subst; rest_done].
    destruct (json res); simpl in H; subst; rest_done.
  - (* TypeDraft *)
    destruct (Page.thread_shown _ _); simpl in H; subst; rest_done.
  - (* PressEnter *)
    destruct (Page.thread_shown _ _); simpl in H; [|subst; exact Hs].
    eapply at_rest_send; eassumption.
  - (* ClickSend *)
    destruct (Page.thread_shown _ _ && _); simpl in H; [|subst; exact Hs].
    eapply at_rest_send; eassumption.
Qed.

(** X13.  As long as each action's call has ended before the next action,
    the page is at rest between actions: the loading and sending flags are
    down, the session identifier and the transcript are both [null] or
    both set, and a session identifier is only set while a scan is on the
    page. *)
Theorem X13_page_at_rest_between_actions :
  forall s : State,
    reachable s ->
    Home.loading s = false /\
    Home.sending s = false /\
    (Home.sessionId s = None <-> Home.messages s = None) /\
    (is_Some (Home.sessionId s) -> is_Some (Home.scan s)).
Proof.
  intros s Hreach. change (Page.at_rest s).
  induction Hreach as [|a s s' _ IH Hstep].
  - apply at_rest_initial.
  - eapply at_rest_step; eassumption.
Qed.

(** X14.  Under the same condition, a session with a non-empty identifier
    is always on display: the scan section is on the page and its thread
    has one entry per message of the transcript, in order, each with the
    role and the text of its message.  With no session identifier, or an
    empty one, no thread is shown. *)
Theorem X14_open_session_is_on_display :
  forall s : State,
    reachable s ->
    (JsString.truthy_opt (Home.sessionId s) = true ->
     exists sec ms,
       Home.messages s = Some ms /\
       Home.scan_section (render s) = Some sec /\
       Home.shown_thread sec = Some (map Home.bubble ms) /\
       map Home.bubble_role (map Home.bubble ms) = map role ms /\
       map Home.bubble_content (map Home.bubble ms) = map content ms) /\
    (JsString.truthy_opt (Home.sessionId s) = false ->
     Page.thread_shown URL_new s = false).
Proof.
  intros s Hreach.
  assert (Hrest : Page.at_rest s).
  { induction Hreach as [|a s s' _ IH Hstep].
    - apply at_rest_initial.
    - eapply at_rest_step; eassumption. }
  destruct Hrest as (_ & _ & Hboth & Hscan). split.
  - intros Hsid.
    destruct (Home.sessionId s) as [sid|] eqn:Es; [|discriminate].
    destruct (Hscan ltac:(eexists; reflexivity)) as [sc Hsc].
    destruct (Home.messages s) as [ms|] eqn:Em.
    2:{ destruct Hboth as [_ Hb]. specialize (Hb eq_refl). discriminate. }
    eexists. exists ms. split; [reflexivity|].
    unfold Home.render. simpl. rewrite Hsc, Es, Em. simpl in Hsid |- *. rewrite Hsid.
    split; [reflexivity|]. split; [reflexivity|].
    rewrite !map_map. split; reflexivity.
  - intros Hsid. unfold Page.thread_shown, Home.render. simpl.
    destruct (Home.scan s); [|reflexivity]. simpl. rewrite Hsid. reflexivity.
Qed.

End RestFacts.

(** ** The chat panel *)

(** X15.  A send from the panel with a text that is not blank empties the
    input, appends the trimmed text as a [user] entry to the panel's own
    transcript and then goes on as [onSend] of the trimmed text does, in
    that state; the text handed over is not blank and has no white space
    at either end.  A sync with the parent replaces the panel's transcript,
    the appended entry included, by the parent's (by the empty one when the
    parent has none) and keeps the text being typed. *)
Theorem X15_panel_send_and_sync :
  (forall (onSend : string -> Async ChatPanel.State unit) (c s : ChatPanel.State),
      JsString.blank (ChatPanel.text c) = false ->
      run (ChatPanel.handleSend onSend c) s
      = run (onSend (JsString.trim (ChatPanel.text c)))
            {| ChatPanel.messages :=
                 (ChatPanel.messages s
                    ++ [{| role := user; content := JsString.trim (ChatPanel.text c) |}])%list;
               ChatPanel.text := "" |} /\
      JsString.blank (JsString.trim (ChatPanel.text c)) = false /\
      JsString.trimStart (JsString.trim (ChatPanel.text c))
      = JsString.trim (ChatPanel.text c) /\
      JsString.trimEnd (JsString.trim (ChatPanel.text c))
      = JsString.trim (ChatPanel.text c)) /\
  (forall (initialMessages : option (list Message)) (s : ChatPanel.State),
      run (ChatPanel.syncWithParent initialMessages) s
      = ({| ChatPanel.messages := default [] initialMessages;
            ChatPanel.text := ChatPanel.text s |}, Resolved tt)).
Proof.
  split.
  - intros onSend c s Hb.
    destruct (trim_fixed (ChatPanel.text c)) as (Hstart & Hend & _).
    split; [|split; [apply trim_not_blank, Hb|split; assumption]].
    unfold ChatPanel.handleSend.
    pose proof (trim_not_blank _ Hb) as Ht.
    destruct (JsString.trim (ChatPanel.text c)) as [|a t] eqn:Etrim; [discriminate|].
    reflexivity.
  - intros initialMessages s. reflexivity.
Qed.

(** ** The further properties at the sample values *)


Lemma X6_witness :
  Home.canScan URL_new chatting = true /\
  exists k s2,
    run (Home.onScan env URL_new chatting) chatting
    = (Home.scan_reset chatting, Awaiting (Home.scan_request env chatting) k) /\
    run (k (error_500 scan72)) (Home.scan_reset chatting) = (s2, Resolved tt) /\
    Home.scan s2 = None /\
    Home.sessionId s2 = None /\
    Home.err s2 = Some "POST /scan failed: 500" /\
    run (k (Rejected (Error "Failed to fetch"))) (Home.scan_reset chatting)
    = (Home.with_loading false
         (Home.with_err (Some "Failed to fetch") (Home.scan_reset chatting)),
       Resolved tt).
Proof.
  split; [reflexivity|].
  destruct (X6_failed_scan_drops_previous_results env URL_new chatting chatting eq_refl)
    as (k & Hrun & _ & _ & _ & Hrej & Hnok & _ & Hfail).
  destruct (Hfail (error_500 scan72) (or_introl eq_refl))
    as (_ & s2 & Hk & Hscan & Hsid & _ & _).
  exists k, s2. split; [exact Hrun|]. split; [exact Hk|].
  split; [exact Hscan|]. split; [exact Hsid|]. split; [|apply Hrej].
  pose proof (Hnok {| ok := false; status := 500; json := inr scan72 |}
                (Home.scan_reset chatting) eq_refl) as Hk'.
  change (Responded {| ok := false; status := 500; json := inr scan72 |})
    with (error_500 scan72) in Hk'.
  rewrite Hk in Hk'. injection Hk' as ->. reflexivity.
Defined.

Lemma X7_witness :
  (Home.scan other_site = None /\
   run (Home.startAssistant env other_site) other_site = (other_site, Resolved tt)) /\
  (JsString.truthy_opt (Home.sessionId (Home.with_draft "fix CORS" scanned)) = false /\
   run (Home.sendToAssistantInline env (Home.with_draft "fix CORS" scanned))
       (Home.with_draft "fix CORS" scanned)
   = (Home.with_draft "fix CORS" scanned, Resolved tt)).
Proof.
  destruct (X7_assistant_guards (number := number) (any := any) env) as (Hstart & Hsend).
  split.
  - split; [reflexivity|]. apply Hstart. reflexivity.
  - split; [reflexivity|]. apply Hsend. reflexivity.
Defined.

Lemma X8_witness :
  Home.scan scanned = Some scan72 /\
  exists k s2,
    run (Home.startAssistant env scanned) scanned
    = (Home.with_err None scanned, Awaiting (Page.session_request env scan72) k) /\
    run (k (ok_200 boot_body)) (Home.with_err None scanned) = (s2, Resolved tt) /\
    Home.sessionId s2 = Some "s-1" /\
    Page.thread_shown URL_new s2 = true.
Proof.
  split; [reflexivity|].
  destruct (X8_session_start_success env URL_new scanned scanned scan72 eq_refl)
    as (k & Hrun & _ & Hok).
  destruct (Hok {| ok := true; status := 200; json := inr boot_body |} boot_body
              (Home.with_err None scanned) eq_refl eq_refl)
    as (s2 & Hk & _ & Hsid & _ & Hshown).
  exists k, s2. repeat split; assumption.
Defined.

Lemma X9_witness :
  Home.scan scanned = Some scan72 /\
  exists k s2,
    run (Home.startAssistant env scanned) scanned
    = (Home.with_err None scanned, Awaiting (Page.session_request env scan72) k) /\
    run (k (error_500 boot_body)) (Home.with_err None scanned) = (s2, Resolved tt) /\
    Home.err s2 = Some "POST /llm/session failed: 500" /\
    Home.sessionId s2 = None /\
    Home.scan s2 = Some scan72 /\
    run (k (Rejected (Error "Failed to fetch"))) (Home.with_err None scanned)
    = (Home.with_err (Some "Failed to fetch") (Home.with_err None scanned), Resolved tt).
Proof.
  split; [reflexivity|].
  destruct (X9_session_start_failure env scanned scanned scan72 eq_refl)
    as (k & Hrun & Hrej & Hnok & _ & Hfail).
  destruct (Hfail (error_500 boot_body) (or_introl eq_refl) (Home.with_err None scanned))
    as (s2 & Hk & Hscan & Hsid & _).
  exists k, s2. split; [exact Hrun|]. split; [exact Hk|].
  split; [|split; [exact Hsid|split; [exact Hscan|apply Hrej]]].
  pose proof (Hnok {| ok := false; status := 500; json := inr boot_body |}
                (Home.with_err None scanned) eq_refl) as Hk'.
  change (Responded {| ok := false; status := 500; json := inr boot_body |})
    with (error_500 boot_body) in Hk'.
  rewrite Hk in Hk'. injection Hk' as ->. reflexivity.
Defined.

Lemma X10_witness :
  (Home.sessionId chatting = Some "s-1" /\
   JsString.truthy "s-1" = true /\
   JsString.blank (Home.draft chatting) = false) /\
  exists k : FetchResult Home.Reply -> Async State unit,
    run (Home.sendToAssistantInline env chatting) chatting
    = (Home.send_optimistic "fix the CSP header" chatting,
       Awaiting (message_request "s-1" "fix the CSP header") k).
Proof.
  split; [repeat split; reflexivity|].
  destruct (X10_send_posts_trimmed_draft env chatting chatting "s-1"
              eq_refl eq_refl eq_refl) as (k & t & Ht & Hrun & _).
  exists k. rewrite Ht in Hrun. exact Hrun.
Defined.

Lemma X11_witness :
  (Home.sessionId chatting = Some "s-1" /\
   JsString.truthy "s-1" = true /\
   JsString.blank (Home.draft chatting) = false /\
   Home.sessionId (Home.scan_reset (Home.send_optimistic "fix the CSP header" chatting))
   = None) /\
  exists k s2,
    run (Home.sendToAssistantInline env chatting) chatting
    = (Home.send_optimistic "fix the CSP header" chatting,
       Awaiting (message_request "s-1" "fix the CSP header") k) /\
    run (k (ok_200 reply_body))
        (Home.scan_reset (Home.send_optimistic "fix the CSP header" chatting))
    = (s2, Resolved tt) /\
    Home.sessionId s2 = None /\
    Page.thread_shown URL_new s2 = false.
Proof.
  split; [repeat split; reflexivity|].
  destruct (X11_late_reply_does_not_reopen_session env URL_new chatting chatting "s-1"
              eq_refl eq_refl eq_refl) as (k & Hrun & Hlate).
  destruct (Hlate (ok_200 reply_body)
              (Home.scan_reset (Home.send_optimistic "fix the CSP header" chatting))
              eq_refl) as (s2 & Hk & Hsid & _ & Hshown & _).
  exists k, s2. repeat split; assumption.
Defined.

Lemma X12_witness :
  (Home.sessionId chatting = Some "s-1" /\
   JsString.truthy "s-1" = true /\
   JsString.blank (Home.draft chatting) = false /\
   JsString.blank "and CORS" = false) /\
  exists k1 k2 : FetchResult Home.Reply -> Async State unit,
    run (Home.sendToAssistantInline env chatting) chatting
    = (Home.send_optimistic "fix the CSP header" chatting,
       Awaiting (message_request "s-1" "fix the CSP header") k1) /\
    run (Home.sendToAssistantInline env
           (Home.with_draft "and CORS"
              (Home.send_optimistic "fix the CSP header" chatting)))
        (Home.with_draft "and CORS" (Home.send_optimistic "fix the CSP header" chatting))
    = (Home.send_optimistic "and CORS"
         (Home.with_draft "and CORS" (Home.send_optimistic "fix the CSP header" chatting)),
       Awaiting (message_request "s-1" "and CORS") k2).
Proof.
  split; [repeat split; reflexivity|].
  destruct (X12_overlapping_sends env chatting "s-1" "and CORS"
              eq_refl eq_refl eq_refl eq_refl)
    as (k1 & k2 & s1 & s1' & Hs1 & Hs1' & Hrun1 & Hrun2 & _).
  exists k1, k2. rewrite Hs1', Hs1 in Hrun2. rewrite Hs1 in Hrun1.
  split; [exact Hrun1|exact Hrun2].
Defined.

Lemma sample_after_scan_reachable : Page.reachable env URL_new after_scan.
Proof.
  apply (Page.reachable_step _ _ env URL_new Page.ClickScan Home.initial after_scan).
  - apply Page.reachable_initial.
  - exists (ok_200 scan72). reflexivity.
Defined.

Lemma sample_after_start_reachable : Page.reachable env URL_new after_start.
Proof.
  apply (Page.reachable_step _ _ env URL_new Page.ClickStartAssistant after_scan after_start).
  - apply sample_after_scan_reachable.
  - exists (ok_200 boot_body). reflexivity.
Defined.

Lemma X13_witness :
  Page.reachable env URL_new after_start /\
  Home.loading after_start = false /\
  Home.sending after_start = false /\
  (Home.sessionId after_start = None <-> Home.messages after_start = None) /\
  (is_Some (Home.sessionId after_start) -> is_Some (Home.scan after_start)).
Proof.
  split; [apply sample_after_start_reachable|].
  apply (X13_page_at_rest_between_actions env URL_new after_start).
  apply sample_after_start_reachable.
Defined.

Lemma X14_witness :
  (Page.reachable env URL_new after_start /\
   JsString.truthy_opt (Home.sessionId after_start) = true) /\
  exists sec ms,
    Home.messages after_start = Some ms /\
    Home.scan_section (Home.render URL_new after_start) = Some sec /\
    Home.shown_thread sec = Some (map Home.bubble ms).
Proof.
  split; [split; [apply sample_after_start_reachable|reflexivity]|].
  destruct (proj1 (X14_open_session_is_on_display env URL_new after_start
                     sample_after_start_reachable) eq_refl)
    as (sec & ms & Hms & Hsec & Hthread & _).
  exists sec, ms. repeat split; assumption.
Defined.

Lemma X15_witness :
  JsString.blank (ChatPanel.text typing_panel) = false /\
  run (ChatPanel.handleSend (fun _ => Ret tt) typing_panel) typing_panel
  = ({| ChatPanel.messages :=
          [ {| role := assistant; content := "Hello" |};
            {| role := user; content := "fix CORS" |} ];
        ChatPanel.text := "" |}, Resolved tt).
Proof.
  split; [reflexivity|].
  destruct X15_panel_send_and_sync as (Hsend & _).
  destruct (Hsend (fun _ => Ret tt) typing_panel typing_panel eq_refl) as (Hrun & _).
  rewrite Hrun. reflexivity.
Defined.

(** ** A session start overtaken by a scan *)

Section OvertakenStart.

Context {number any : Type}.
Context (env : option string) (URL_new : string -> Thrown + URL).

Abbreviation State := (Home.State number any).

(** X16.  Nothing ties a session to the scan it was started for.  When a
    scan is made while a session start is awaited, and the scan is answered
    first, the later answer to the session start sets the session
    identifier and the transcript all the same: the page then shows the new
    scan with the thread of a session that was started on the old one. *)
Theorem X16_session_start_overtaken_by_scan :
  forall (c s c2 : State) (old : Scan number any),
    Home.scan c = Some old ->
    Home.canScan URL_new c2 = true ->
    exists (k_start : FetchResult Home.Boot -> Async State unit)
           (k_scan : FetchResult (Scan number any) -> Async State unit),
      run (Home.startAssistant env c) s
      = (Home.with_err None s, Awaiting (Page.session_request env old) k_start) /\
      req_body (Page.session_request env old) = Some (Home.SessionBody old "gpt-4o-mini") /\
      run (Home.onScan env URL_new c2) (Home.with_err None s)
      = (Home.scan_reset (Home.with_err None s), Awaiting (Home.scan_request env c2) k_scan) /\
      forall (res1 : Response (Scan number any)) (new : Scan number any)
             (res2 : Response Home.Boot) (boot : Home.Boot),
        ok res1 = true -> json res1 = inr new ->
        ok res2 = true -> json res2 = inr boot ->
        exists s2 s3 : State,
          run (k_scan (Responded res1)) (Home.scan_reset (Home.with_err None s))
          = (s2, Resolved tt) /\
          run (k_start (Responded res2)) s2 = (s3, Resolved tt) /\
          Home.scan s3 = Some new /\
          Home.sessionId s3 = Some (Home.boot_session_id boot) /\
          Home.messages s3 = Some (Home.boot_messages boot) /\
          Page.thread_shown URL_new s3 = JsString.truthy (Home.boot_session_id boot).
Proof.
  intros c s c2 old Hscan Hgate.
  destruct (startAssistant_runs env c s old Hscan) as (k_start & Hrun1 & Hok1 & _).
  destruct (onScan_runs env URL_new c2 (Home.with_err None s) Hgate)
    as (k_scan & Hrun2 & Hok2 & _).
  exists k_start, k_scan. split; [exact Hrun1|]. split; [reflexivity|].
  split; [exact Hrun2|].
  intros res1 new res2 boot Hr1 Hj1 Hr2 Hj2.
  eexists. eexists. split; [apply Hok2; eassumption|].
  split; [apply Hok1; eassumption|].
  split; [reflexivity|]. split; [reflexivity|]. split; [reflexivity|].
  unfold Page.thread_shown, Home.render. simpl.
  destruct (JsString.truthy (Home.boot_session_id boot)); reflexivity.
Qed.

End OvertakenStart.

Lemma X16_witness :
  (Home.scan scanned = Some scan72 /\ Home.canScan URL_new scanned = true) /\
  exists (k_start : FetchResult Home.Boot -> Async State unit)
         (k_scan : FetchResult (Scan number any) -> Async State unit) (s2 s3 : State),
    run (Home.startAssistant env scanned) scanned
    = (Home.with_err None scanned, Awaiting (Page.session_request env scan72) k_start) /\
    run (Home.onScan env URL_new scanned) (Home.with_err None scanned)
    = (Home.scan_reset (Home.with_err None scanned),
       Awaiting (Home.scan_request env scanned) k_scan) /\
    run (k_scan (ok_200 scan72)) (Home.scan_reset (Home.with_err None scanned))
    = (s2, Resolved tt) /\
    run (k_start (ok_200 boot_body)) s2 = (s3, Resolved tt) /\
    Home.sessionId s3 = Some "s-1" /\
    Page.thread_shown URL_new s3 = true.
Proof.
  split; [split; reflexivity|].
  destruct (X16_session_start_overtaken_by_scan env URL_new scanned scanned scanned scan72
              eq_refl eq_refl) as (k_start & k_scan & Hrun1 & _ & Hrun2 & Hboth).
  destruct (Hboth {| ok := true; status := 200; json := inr scan72 |} scan72
              {| ok := true; status := 200; json := inr boot_body |} boot_body
              eq_refl eq_refl eq_refl eq_refl)
    as (s2 & s3 & Hk2 & Hk1 & _ & Hsid & _ & Hshown).
  exists k_start, k_scan, s2, s3. repeat split; assumption.
Defined.
